(** * neuropdfv2: credential cache, quota meter and the single-namespace
      document session, embedded from [backend/security.py] and
      [backend/main.py].

    The Python module state ([api_keys], [CURRENT_NAMESPACE]), the Firestore
    collection [api_keys] and the Pinecone index are the fields of one
    [State] that every operation threads; an exception leaves the state as
    it was when it was raised, as in Python.  The external collaborators
    (clock, PDF parser, loader, splitter, retriever, LLM, availability of
    the store and of the index) are the fields of a [World]. *)

From Stdlib Require Import ZArith Ascii String List Lia DecimalString.
From stdpp Require Import base option gmap strings.

Local Open Scope Z_scope.
Local Open Scope string_scope.

(** ** Python values used by the code *)

(** Exceptions.  [RateLimitExceeded] is slowapi's subclass of
    [HTTPException], matched by its own [except] clause in the endpoints;
    [Error] is any other exception, carrying what [str(e)] prints. *)
Inductive exception : Type :=
  | HTTPException (status_code : Z) (detail : string)
  | RateLimitExceeded
  | Error (msg : string).

Inductive result (A : Type) : Type :=
  | Ok (a : A)
  | Raise (e : exception).
Arguments Ok {A} a.
Arguments Raise {A} e.

(** [str(n)] for an integer. *)
Definition str_of_Z (n : Z) : string := NilZero.string_of_int (Z.to_int n).
Definition str_of_nat (n : nat) : string := NilZero.string_of_uint (Nat.to_uint n).

(** [str(e)]: Starlette prints an [HTTPException] as its status code, a
    colon and its detail. *)
Definition exc_str (e : exception) : string :=
  match e with
  | HTTPException c d => str_of_Z c +:+ ": " +:+ d
  | RateLimitExceeded => "429: Rate limit exceeded"
  | Error m => m
  end.

(** [datetime] values are counted in microseconds from 0001-01-01T00:00;
    [datetime.max] is 9999-12-31T23:59:59.999999 and every datetime is at
    most that. *)
Definition MICROS_PER_DAY : Z := 86400 * 1000000.
Definition DATETIME_MAX : Z := 3652059 * MICROS_PER_DAY - 1.
Definition timedelta_days (d : Z) : Z := d * MICROS_PER_DAY.
Definition is_datetime (t : Z) : Prop := 0 <= t <= DATETIME_MAX.

(** A LangChain document: the text and the metadata keys the code reads or
    writes. *)
Record Metadata : Type := mkMetadata {
  md_chunk_id : option nat;
  md_filename : option string;
  md_page : option string
}.

Record Document : Type := mkDocument {
  page_content : string;
  metadata : Metadata
}.

Inductive Message : Type :=
  | SystemMessage (content : string)
  | HumanMessage (content : string).

(** A cached key record, a dict of [api_keys].  The entry created by
    [update_usage_metrics] for an unknown key has neither ["user_id"] nor
    ["expires_at"]; a ["user_id"] copied from a store document that lacks
    it is present with value [None]. *)
Record KeyRecord : Type := mkKeyRecord {
  user_id : option (option string);
  daily_usage : Z;
  last_reset : Z;
  expires_at : option Z
}.

(** A Firestore document of collection [api_keys], as [to_dict()] gives it.
    A timestamp field is [None] when the key is missing or is not an
    ISO-8601 string, the cases in which [datetime.fromisoformat] raises. *)
Record StoreDoc : Type := mkStoreDoc {
  s_user_id : option string;
  s_daily_usage : option Z;
  s_last_reset : option Z;
  s_expires_at : option Z
}.

(** Calls made to the vector index and to the LLM, most recent first. *)
Inductive Call : Type :=
  | IndexDelete (namespace : string)
  | IndexAdd (namespace : string) (chunks : list Document)
  | SimilaritySearch (namespace : string) (query : string)
  | LlmInvoke (messages : list Message).

Record State : Type := mkState {
  api_keys : gmap string KeyRecord;
  db : gmap string StoreDoc;
  CURRENT_NAMESPACE : option string;
  pinecone : gmap string (list Document);
  calls : list Call
}.

(** What the collaborators answer during one request.  [now] is the
    reading of [datetime.now()]; a fault is the text of the exception the
    call raises ([inl] for the calls that return a value); the two [_ok]
    flags belong to calls whose exception the code swallows. *)
Record World : Type := mkWorld {
  now : Z;
  store_get_fault : option string;
  store_update_ok : bool;
  pdf_num_pages : string -> option nat;
  load_pdf : string -> string + list Document;
  split_documents : list Document -> string + list Document;
  describe_index_stats_ok : bool;
  index_delete_ok : bool;
  add_documents_fault : option string;
  similarity_search : list Document -> string -> string + list Document;
  llm_invoke : list Message -> string + string
}.

(** ** State and exception monad *)

Definition M (A : Type) : Type := State -> result A * State.

Definition ret {A} (a : A) : M A := fun s => (Ok a, s).
Definition raise {A} (e : exception) : M A := fun s => (Raise e, s).
Definition bind {A B} (m : M A) (f : A -> M B) : M B :=
  fun s => match m s with
           | (Ok a, s') => f a s'
           | (Raise e, s') => (Raise e, s')
           end.
Definition try_except {A} (m : M A) (handler : exception -> M A) : M A :=
  fun s => match m s with
           | (Ok a, s') => (Ok a, s')
           | (Raise e, s') => handler e s'
           end.
Definition get : M State := fun s => (Ok s, s).
Definition modify (f : State -> State) : M unit := fun s => (Ok tt, f s).
Definition lift_collab {A} (r : string + A) : M A :=
  match r with
  | inl msg => raise (Error msg)
  | inr a => ret a
  end.

Declare Scope py_scope.
Delimit Scope py_scope with py.
Notation "x <- c1 ;; c2" := (bind c1 (fun x => c2))
  (at level 100, c1 at next level, right associativity) : py_scope.
Notation "c1 ;;; c2" := (bind c1 (fun _ => c2))
  (at level 100, right associativity) : py_scope.

Definition set_api_keys (f : gmap string KeyRecord -> gmap string KeyRecord) (s : State) : State :=
  mkState (f (api_keys s)) (db s) (CURRENT_NAMESPACE s) (pinecone s) (calls s).
Definition set_db (f : gmap string StoreDoc -> gmap string StoreDoc) (s : State) : State :=
  mkState (api_keys s) (f (db s)) (CURRENT_NAMESPACE s) (pinecone s) (calls s).
Definition set_namespace (ns : option string) (s : State) : State :=
  mkState (api_keys s) (db s) ns (pinecone s) (calls s).
Definition set_pinecone (f : gmap string (list Document) -> gmap string (list Document)) (s : State) : State :=
  mkState (api_keys s) (db s) (CURRENT_NAMESPACE s) (f (pinecone s)) (calls s).
Definition log_call (c : Call) (s : State) : State :=
  mkState (api_keys s) (db s) (CURRENT_NAMESPACE s) (pinecone s) (c :: calls s).

(** ** [main.sanitize_namespace] *)

(** [s.replace(pat, '')] for a non-empty [pat]: every non-overlapping
    occurrence, scanning from the left, is dropped.  [skip] counts the
    characters of the current occurrence still to be dropped. *)
Fixpoint remove_all_from (pat : string) (skip : nat) (s : string) : string :=
  match s with
  | EmptyString => EmptyString
  | String c rest =>
      match skip with
      | S k => remove_all_from pat k rest
      | O => if String.prefix pat s
             then remove_all_from pat (String.length pat - 1) rest
             else String c (remove_all_from pat O rest)
      end
  end.

Definition str_replace_empty (pat s : string) : string := remove_all_from pat O s.

(** The characters kept by the pattern [[^a-zA-Z0-9]]. *)
Definition is_ascii_alnum (c : ascii) : bool :=
  let n := nat_of_ascii c in
  ((48 <=? n) && (n <=? 57) || (65 <=? n) && (n <=? 90) || (97 <=? n) && (n <=? 122))%nat.

Fixpoint map_chars (f : ascii -> ascii) (s : string) : string :=
  match s with
  | EmptyString => EmptyString
  | String c rest => String (f c) (map_chars f rest)
  end.

Definition re_sub_non_alnum (s : string) : string :=
  map_chars (fun c => if is_ascii_alnum c then c else "_"%char) s.

Definition sanitize_namespace (name : string) : string :=
  let name := str_replace_empty ".pdf" name in
  let sanitized := re_sub_non_alnum name in
  if (50 <? String.length sanitized)%nat
  then String.substring 0 50 sanitized
  else sanitized.

(** The namespace of an upload: the f-string of lines 167-168 of [main.py];
    a [None] user id prints as ["None"]. *)
Definition py_str_opt (o : option string) : string := default "None" o.

Definition namespace_of (rec : KeyRecord) (filename : string) : string :=
  let uid := match user_id rec with
             | Some v => py_str_opt v
             | None => "anonymous"
             end in
  uid +:+ "_" +:+ sanitize_namespace filename.

(** The transform as the specification words it: only a trailing [.pdf] is
    stripped. *)
Definition strip_pdf_suffix (name : string) : string :=
  let n := String.length name in
  if (4 <=? n)%nat && String.eqb (String.substring (n - 4) 4 name) ".pdf"
  then String.substring 0 (n - 4) name
  else name.

Definition spec_sanitize (name : string) : string :=
  let sanitized := re_sub_non_alnum (strip_pdf_suffix name) in
  String.substring 0 50 sanitized.

Definition spec_namespace (owner_id filename : string) : string :=
  owner_id +:+ "_" +:+ spec_sanitize filename.

(** ** [security.py] *)

Definition MAX_FILE_SIZE : Z := 10 * 1024 * 1024.
Definition MAX_PAGES : nat := 50.
Definition DAILY_QUOTA : Z := 50 * 1024 * 1024.

Definition is_pdf (file_content : string) : bool := String.prefix "%PDF-" file_content.

Definition key_error (key : string) : exception := Error ("'" +:+ key +:+ "'").

Section Operations.

Variable w : World.

Local Open Scope py_scope.

(** [db.collection('api_keys').document(api_key).get()] followed by
    [exists] and [to_dict()]. *)
Definition store_get (api_key : string) : M (option StoreDoc) :=
  match store_get_fault w with
  | Some msg => raise (Error msg)
  | None => s <- get ;; ret (db s !! api_key)
  end.

Definition fromisoformat (field : option Z) : M Z :=
  match field with
  | Some t => ret t
  | None => raise (Error "fromisoformat: argument must be str")
  end.

Definition validate_api_key (api_key : string) : M string :=
  s <- get ;;
  match api_keys s !! api_key with
  | Some rec =>
      if now w >? default DATETIME_MAX (expires_at rec)
      then raise (HTTPException 401 "API key expired")
      else ret api_key
  | None =>
      try_except
        (key_doc <- store_get api_key ;;
         match key_doc with
         | None => raise (HTTPException 401 "Invalid API key")
         | Some key_data =>
             expires <- fromisoformat (s_expires_at key_data) ;;
             if now w >? expires
             then raise (HTTPException 401 "API key expired")
             else
               reset <- fromisoformat (s_last_reset key_data) ;;
               modify (set_api_keys (insert api_key
                 (mkKeyRecord (Some (s_user_id key_data))
                              (default 0 (s_daily_usage key_data))
                              reset (Some expires)))) ;;;
               ret api_key
         end)
        (fun e => raise (HTTPException 401 ("Error validating API key: " +:+ exc_str e)))
  end.

Definition check_file_size (file_size : Z) : M unit :=
  if file_size >? MAX_FILE_SIZE
  then raise (HTTPException 400 "File size exceeds maximum limit of 10.0MB")
  else ret tt.

Definition validate_pdf_content (file_content : string) : M unit :=
  if negb (is_pdf file_content)
  then raise (HTTPException 400 "Invalid file type. Only PDF files are allowed.")
  else
    try_except
      (match pdf_num_pages w file_content with
       | None => raise (Error "PdfReadError")
       | Some pages =>
           if (MAX_PAGES <? pages)%nat
           then raise (HTTPException 400 "PDF exceeds maximum page limit of 50")
           else ret tt
       end)
      (fun _ => raise (HTTPException 400 "Invalid PDF file")).

(** The two in-place updates of lines 163-168 of [security.py]. *)
Definition reset_if_new_day (r : KeyRecord) : KeyRecord :=
  if now w - last_reset r >? timedelta_days 1
  then mkKeyRecord (user_id r) 0 (now w) (expires_at r)
  else r.

Definition add_usage (bytes_processed : Z) (r : KeyRecord) : KeyRecord :=
  mkKeyRecord (user_id r) (daily_usage r + bytes_processed) (last_reset r) (expires_at r).

(** [document(api_key).update({...})]: fails when the store is down or has
    no such document; either failure is logged and swallowed. *)
Definition store_update_usage (api_key : string) (r : KeyRecord) : M unit :=
  if store_update_ok w
  then modify (set_db (alter (fun d =>
         mkStoreDoc (s_user_id d) (Some (daily_usage r)) (Some (last_reset r)) (s_expires_at d))
         api_key))
  else ret tt.

Definition update_usage_metrics (api_key : string) (bytes_processed : Z) : M unit :=
  s <- get ;;
  match api_keys s !! api_key with
  | Some _ => ret tt
  | None =>
      key_doc <- store_get api_key ;;
      match key_doc with
      | Some key_data =>
          reset <- fromisoformat (s_last_reset key_data) ;;
          expires <- fromisoformat (s_expires_at key_data) ;;
          modify (set_api_keys (insert api_key
            (mkKeyRecord (Some (s_user_id key_data))
                         (default 0 (s_daily_usage key_data))
                         reset (Some expires))))
      | None =>
          modify (set_api_keys (insert api_key (mkKeyRecord None 0 (now w) None)))
      end
  end ;;;
  modify (set_api_keys (alter reset_if_new_day api_key)) ;;;
  modify (set_api_keys (alter (add_usage bytes_processed) api_key)) ;;;
  s <- get ;;
  match api_keys s !! api_key with
  | Some r => store_update_usage api_key r
  | None => raise (key_error api_key)
  end.

Definition check_quota (api_key : string) : M unit :=
  s <- get ;;
  match api_keys s !! api_key with
  | None => raise (key_error api_key)
  | Some r =>
      if daily_usage r >? DAILY_QUOTA
      then raise (HTTPException 429 "Daily quota exceeded")
      else ret tt
  end.

End Operations.

(** ** [main.py] *)

Record UploadResponse : Type := mkUploadResponse {
  message : string;
  namespace : string
}.

Record QuestionResponse : Type := mkQuestionResponse {
  answer : string;
  context : option string
}.

Definition nl : string := String (ascii_of_nat 10) EmptyString.
Definition dquote : string := String (ascii_of_nat 34) EmptyString.

Definition FALLBACK_ANSWER : string :=
  "I don't have enough information in the document to answer this question.".
Definition FALLBACK_CONTEXT : string :=
  "No relevant content found in the document.".
Definition NO_DOCUMENT_DETAIL : string :=
  "No document has been uploaded yet. Please upload a PDF first.".
Definition RATE_LIMIT_DETAIL : string :=
  "Rate limit exceeded. Please try again later.".

Definition system_message : string :=
  nl +:+ "        You have access to a PDF document. Your task is to answer the user's questions strictly based on the content of the PDF."
  +:+ nl +:+ "        If a question cannot be answered from the PDF, respond with: "
  +:+ dquote +:+ "The answer is not found in the document." +:+ dquote
  +:+ nl +:+ "        Be accurate, concise, and reference relevant sections or quotes when possible. Wait for the user's question."
  +:+ nl +:+ "        ".

Definition human_message (context question : string) : string :=
  "CONTEXT:" +:+ nl +:+ context +:+ nl +:+ nl
  +:+ "QUESTION: " +:+ question +:+ nl +:+ nl
  +:+ "Remember: ONLY use information from the document provided. If the answer isn't in the document, say "
  +:+ dquote +:+ FALLBACK_ANSWER +:+ dquote +:+ nl.

(** The loop of lines 191-196: chunk index, file name, and ["unknown"] for
    a chunk without page metadata. *)
Fixpoint add_metadata_from (i : nat) (filename : string) (chunks : list Document) : list Document :=
  match chunks with
  | [] => []
  | chunk :: rest =>
      mkDocument (page_content chunk)
        (mkMetadata (Some i) (Some filename)
           (Some (default "unknown" (md_page (metadata chunk)))))
      :: add_metadata_from (S i) filename rest
  end.

Definition add_metadata (filename : string) (chunks : list Document) : list Document :=
  add_metadata_from 0 filename chunks.

(** The context block of lines 277-283. *)
Fixpoint context_parts_from (i : nat) (results : list Document) : list string :=
  match results with
  | [] => []
  | doc :: rest =>
      ("DOCUMENT SECTION " +:+ str_of_nat (S i) +:+ " [Document: "
       +:+ default "Unknown" (md_filename (metadata doc)) +:+ ", Page: "
       +:+ default "Unknown" (md_page (metadata doc)) +:+ "]:" +:+ nl
       +:+ page_content doc)
      :: context_parts_from (S i) rest
  end.

Fixpoint join (sep : string) (parts : list string) : string :=
  match parts with
  | [] => EmptyString
  | [p] => p
  | p :: rest => p +:+ sep +:+ join sep rest
  end.

Definition build_context (results : list Document) : string :=
  (nl +:+ nl) +:+ join (nl +:+ nl) (context_parts_from 0 results).

(** Vectors are appended under the namespace; nothing is sent, and no
    namespace appears, for an empty list of chunks. *)
Definition index_add (ns : string) (chunks : list Document)
    (idx : gmap string (list Document)) : gmap string (list Document) :=
  match chunks with
  | [] => idx
  | _ => <[ns := app (default [] (idx !! ns)) chunks]> idx
  end.

Section Endpoints.

Variable w : World.

Local Open Scope py_scope.

Definition namespace_exists (ns : string) : M bool :=
  if describe_index_stats_ok w
  then s <- get ;; ret (bool_decide (is_Some (pinecone s !! ns)))
  else ret false.

(** [index.delete(delete_all=True, namespace=ns)] inside its own
    [try]: a failure is logged and the upload goes on. *)
Definition index_delete (ns : string) : M unit :=
  modify (log_call (IndexDelete ns)) ;;;
  if index_delete_ok w then modify (set_pinecone (delete ns)) else ret tt.

Definition add_documents (ns : string) (chunks : list Document) : M nat :=
  modify (log_call (IndexAdd ns chunks)) ;;;
  match add_documents_fault w with
  | Some msg => raise (Error msg)
  | None => modify (set_pinecone (index_add ns chunks)) ;;; ret (length chunks)
  end.

(** The two [except] clauses shared by [upload_pdf] and [ask_question]. *)
Definition endpoint_handler {A} (e : exception) : M A :=
  match e with
  | RateLimitExceeded => raise (HTTPException 429 RATE_LIMIT_DETAIL)
  | _ => raise (HTTPException 500 (exc_str e))
  end.

Definition upload_pdf (filename content api_key : string) : M UploadResponse :=
  try_except
    (let size := Z.of_nat (String.length content) in
     check_file_size size ;;;
     validate_pdf_content w content ;;;
     check_quota api_key ;;;
     update_usage_metrics w api_key size ;;;
     s <- get ;;
     rec <- match api_keys s !! api_key with
            | Some r => ret r
            | None => raise (key_error api_key)
            end ;;
     let ns := namespace_of rec filename in
     modify (set_namespace (Some ns)) ;;;
     docs <- lift_collab (load_pdf w content) ;;
     chunks <- lift_collab (split_documents w docs) ;;
     let chunks := add_metadata filename chunks in
     found <- namespace_exists ns ;;
     (if found then index_delete ns else ret tt) ;;;
     ids <- add_documents ns chunks ;;
     ret (mkUploadResponse
            ("PDF processed successfully. Created " +:+ str_of_nat (length chunks)
             +:+ " chunks in namespace " +:+ ns +:+ ".")
            ns))
    endpoint_handler.

Definition search (ns question : string) : M (list Document) :=
  modify (log_call (SimilaritySearch ns question)) ;;;
  s <- get ;;
  lift_collab (similarity_search w (default [] (pinecone s !! ns)) question).

Definition invoke_llm (messages : list Message) : M string :=
  modify (log_call (LlmInvoke messages)) ;;;
  lift_collab (llm_invoke w messages).

Definition ask_question (question api_key : string) : M QuestionResponse :=
  try_except
    (s <- get ;;
     match CURRENT_NAMESPACE s with
     | None => raise (HTTPException 400 NO_DOCUMENT_DETAIL)
     | Some ns =>
         if String.eqb ns EmptyString
         then raise (HTTPException 400 NO_DOCUMENT_DETAIL)
         else
           results <- search ns question ;;
           match results with
           | [] => ret (mkQuestionResponse FALLBACK_ANSWER (Some FALLBACK_CONTEXT))
           | _ =>
               let context := build_context results in
               response <- invoke_llm
                 [SystemMessage system_message;
                  HumanMessage (human_message context question)] ;;
               ret (mkQuestionResponse response (Some context))
           end
     end)
    endpoint_handler.

(** The request as FastAPI runs it: the [validate_api_key] dependency, then
    the endpoint body. *)
Definition upload_request (filename content api_key : string) : M UploadResponse :=
  key <- validate_api_key w api_key ;;
  upload_pdf filename content key.

Definition ask_request (question api_key : string) : M QuestionResponse :=
  key <- validate_api_key w api_key ;;
  ask_question question key.

End Endpoints.

(** ** Predicates and states used in the statements *)

(** The three checks of step 1 taken together: size, magic header, and a
    parseable PDF of at most [MAX_PAGES] pages. *)
Definition payload_ok (w : World) (content : string) : bool :=
  (Z.of_nat (String.length content) <=? MAX_FILE_SIZE)%Z
  && is_pdf content
  && match pdf_num_pages w content with
     | Some pages => (pages <=? MAX_PAGES)%nat
     | None => false
     end.

(** The details of the two 401/429 exceptions of [security.py] that the
    statements name. *)
Definition quota_detail : string := "Daily quota exceeded".

(** Lines 172-228 of [upload_pdf], what runs once the namespace is set;
    used to state what the rest of the pipeline does. *)
Definition index_document (w : World) (filename content ns : string) : M UploadResponse :=
  (docs <- lift_collab (load_pdf w content) ;;
   chunks <- lift_collab (split_documents w docs) ;;
   let chunks := add_metadata filename chunks in
   found <- namespace_exists w ns ;;
   (if found then index_delete w ns else ret tt) ;;;
   ids <- add_documents w ns chunks ;;
   ret (mkUploadResponse
          ("PDF processed successfully. Created " +:+ str_of_nat (length chunks)
           +:+ " chunks in namespace " +:+ ns +:+ ".")
          ns))%py.

(** The test of line 202: the index statistics can be read and list the
    namespace. *)
Definition should_clear (w : World) (ns : string) (st : State) : bool :=
  describe_index_stats_ok w && bool_decide (is_Some (pinecone st !! ns)).

(** The state after lines 202-210: the delete call is made when the test
    holds, and takes effect when it does not raise. *)
Definition after_clear (w : World) (ns : string) (st : State) : State :=
  if should_clear w ns st
  then (if index_delete_ok w
        then set_pinecone (delete ns) (log_call (IndexDelete ns) st)
        else log_call (IndexDelete ns) st)
  else st.

(** The cached [daily_usage] of a key, if the key is cached. *)
Definition usage_of (key : string) (st : State) : option Z :=
  daily_usage <$> api_keys st !! key.

(** Extraction, chunking or index submission fails. *)
Definition processing_fails (w : World) (content : string) : bool :=
  match load_pdf w content with
  | inl _ => true
  | inr docs =>
      match split_documents w docs with
      | inl _ => true
      | inr _ => match add_documents_fault w with Some _ => true | None => false end
      end
  end.

(** The world [w] with another LLM collaborator. *)
Definition with_llm (w : World) (llm : list Message -> string + string) : World :=
  mkWorld (now w) (store_get_fault w) (store_update_ok w) (pdf_num_pages w)
    (load_pdf w) (split_documents w) (describe_index_stats_ok w) (index_delete_ok w)
    (add_documents_fault w) (similarity_search w) llm.

Definition is_llm_call (c : Call) : bool :=
  match c with
  | LlmInvoke _ => true
  | _ => false
  end.

(** Number of invocations of the LLM recorded so far. *)
Definition llm_call_count (st : State) : nat := length (filter is_llm_call (calls st)).

Definition expired_detail : string := "API key expired".

(** The name before truncation: [.pdf] removed, other characters replaced. *)
Definition clean_name (name : string) : string :=
  re_sub_non_alnum (str_replace_empty ".pdf" name).

(** No dot in the string. *)
Fixpoint no_dot (s : string) : bool :=
  match s with
  | EmptyString => true
  | String c rest => negb (Ascii.eqb c "."%char) && no_dot rest
  end.

(** ** Sample requests *)

Definition sample_t0 : Z := 730000 * MICROS_PER_DAY.
Definition sample_pdf : string := "%PDF-1.4 sample".
Definition sample_docs : list Document :=
  [mkDocument "The sky is blue." (mkMetadata None None (Some "0"))].

(** Every collaborator answers; the PDF has two pages. *)
Definition sample_world (t : Z) : World :=
  mkWorld t None true (fun _ => Some 2%nat) (fun _ => inr sample_docs) (fun docs => inr docs)
    true true None (fun docs _ => inr (firstn 5 docs)) (fun _ => inr "Blue.").

(** The same, with a loader that raises. *)
Definition sample_world_loader_down (t : Z) : World :=
  mkWorld t None true (fun _ => Some 2%nat) (fun _ => inl "cannot read PDF") (fun docs => inr docs)
    true true None (fun docs _ => inr (firstn 5 docs)) (fun _ => inr "Blue.").

Definition sample_record (usage reset expires : Z) : KeyRecord :=
  mkKeyRecord (Some (Some "u1")) usage reset (Some expires).

(** Key ["k1"] of owner ["u1"], issued at [sample_t0]; document ["a.pdf"] is
    the current one. *)
Definition sample_state (usage : Z) : State :=
  mkState {[ "k1" := sample_record usage sample_t0 (sample_t0 + timedelta_days 30) ]}
    ∅ (Some "u1_a") {[ "u1_a" := sample_docs ]} [].

(** ** Characters of a namespace name *)

Fixpoint forallb_chars (f : ascii -> bool) (s : string) : bool :=
  match s with
  | EmptyString => true
  | String c rest => f c && forallb_chars f rest
  end.

(** A letter, a digit or the underscore that [re.sub] writes. *)
Definition is_namespace_char (c : ascii) : bool :=
  is_ascii_alnum c || Ascii.eqb c "_"%char.

(** ** States reached by the key operations *)

(** The cache record [validate_api_key], [update_usage_metrics] and
    [startup_event] build from a store document whose two timestamps
    parse. *)
Definition record_of_doc (d : StoreDoc) (reset expires : Z) : KeyRecord :=
  mkKeyRecord (Some (s_user_id d)) (default 0 (s_daily_usage d)) reset (Some expires).

(** The store document after the [update] of lines 172-175 of
    [security.py] with the counters of record [r]. *)
Definition doc_with_usage (r : KeyRecord) (d : StoreDoc) : StoreDoc :=
  mkStoreDoc (s_user_id d) (Some (daily_usage r)) (Some (last_reset r)) (s_expires_at d).

(** The state after lines 163-175 of [security.py] on a cached record
    [r]. *)
Definition metered (w : World) (key : string) (bytes : Z) (r : KeyRecord) (st : State) : State :=
  let r' := add_usage bytes (reset_if_new_day w r) in
  let st1 := set_api_keys (insert key r') st in
  if store_update_ok w then set_db (alter (doc_with_usage r') key) st1 else st1.

(** Every cached record has non-negative usage. *)
Definition usage_nonneg (st : State) : Prop :=
  forall k r, api_keys st !! k = Some r -> 0 <= daily_usage r.

(** Every cached record carries an expiry. *)
Definition cache_has_expiry (st : State) : Prop :=
  forall k r, api_keys st !! k = Some r -> is_Some (expires_at r).

(** The store document of key ["k1"], and the sample state with it in the
    store as well. *)
Definition sample_doc (usage : Z) : StoreDoc :=
  mkStoreDoc (Some "u1") (Some usage) (Some sample_t0) (Some (sample_t0 + timedelta_days 30)).

Definition sample_state_stored (usage : Z) : State :=
  set_db (fun _ => {[ "k1" := sample_doc usage ]}) (sample_state usage).

(** The store raises on every read and write. *)
Definition sample_world_store_down (t : Z) : World :=
  mkWorld t (Some "store unavailable") false (fun _ => Some 2%nat) (fun _ => inr sample_docs)
    (fun docs => inr docs) true true None (fun docs _ => inr (firstn 5 docs))
    (fun _ => inr "Blue.").

(** ** [main.py]: debug reset, start-up and key issuance *)

(** The dict a debug endpoint returns: [{"message": ...}] or
    [{"error": ...}]. *)
Inductive DebugResponse : Type :=
  | DebugMessage (text : string)
  | DebugError (text : string).

(** [s.split(sep)[0]] and, for a string that starts with [sep],
    [s.split(sep)[1]]: the text up to the next occurrence of [sep]. *)
Fixpoint take_until (sep s : string) : string :=
  match s with
  | EmptyString => EmptyString
  | String c rest =>
      if String.prefix sep s then EmptyString else String c (take_until sep rest)
  end.

Fixpoint drop_chars (n : nat) (s : string) : string :=
  match n, s with
  | S k, String _ rest => drop_chars k rest
  | _, _ => s
  end.

(** [auth_header.split("Bearer ")[1]] for a header that starts with
    ["Bearer "]. *)
Definition bearer_token (auth_header : string) : string :=
  take_until "Bearer " (drop_chars 7 auth_header).

(** [pat in s]. *)
Fixpoint contains (pat s : string) : bool :=
  match s with
  | EmptyString => String.prefix pat EmptyString
  | String _ rest => String.prefix pat s || contains pat rest
  end.

(** The decoded identity token, with the keys [create_api_key] reads; the
    provider is [""] when the token has none. *)
Record TokenData : Type := mkTokenData {
  uid : string;
  token_email : option string;
  token_name : option string;
  sign_in_provider : string
}.

(** A document of collection [users]. *)
Record UserDoc : Type := mkUserDoc {
  u_email : string;
  u_display_name : string;
  u_created_at : Z;
  u_auth_provider : string;
  u_last_login : Z
}.

Record KeyResponse : Type := mkKeyResponse {
  resp_api_key : string;
  resp_expires_at : Z
}.

(** Key issuance also writes collection [users]. *)
Record IssueState : Type := mkIssueState {
  key_state : State;
  users : gmap string UserDoc
}.

Definition MI (A : Type) : Type := IssueState -> result A * IssueState.

Definition retI {A} (a : A) : MI A := fun s => (Ok a, s).
Definition raiseI {A} (e : exception) : MI A := fun s => (Raise e, s).
Definition bindI {A B} (m : MI A) (f : A -> MI B) : MI B :=
  fun s => match m s with
           | (Ok a, s') => f a s'
           | (Raise e, s') => (Raise e, s')
           end.
Definition try_exceptI {A} (m : MI A) (handler : exception -> MI A) : MI A :=
  fun s => match m s with
           | (Ok a, s') => (Ok a, s')
           | (Raise e, s') => handler e s'
           end.
Definition getI : MI IssueState := fun s => (Ok s, s).
Definition modifyI (f : IssueState -> IssueState) : MI unit := fun s => (Ok tt, f s).

Definition on_keys (f : State -> State) (s : IssueState) : IssueState :=
  mkIssueState (f (key_state s)) (users s).
Definition set_users (f : gmap string UserDoc -> gmap string UserDoc) (s : IssueState) : IssueState :=
  mkIssueState (key_state s) (f (users s)).

Declare Scope issue_scope.
Delimit Scope issue_scope with issue.
Notation "x <- c1 ;; c2" := (bindI c1 (fun x => c2))
  (at level 100, c1 at next level, right associativity) : issue_scope.
Notation "c1 ;;; c2" := (bindI c1 (fun _ => c2))
  (at level 100, right associativity) : issue_scope.

Definition AUTH_REQUIRED_DETAIL : string := "Authentication required".

Section Maintenance.

Variable w : World.

(** [index.delete(delete_all=True)] without a namespace: the index after
    the call, or the text of the exception. *)
Variable delete_all_vectors :
  gmap string (list Document) -> string + gmap string (list Document).

(** Whether [create_index_if_not_exists] raises. *)
Variable create_index_fault : option string.

Local Open Scope py_scope.

(** [POST /debug/clear-index], defined outside production only. *)
Definition clear_index : M DebugResponse :=
  try_except
    (s <- get ;;
     idx <- lift_collab (delete_all_vectors (pinecone s)) ;;
     modify (set_pinecone (fun _ => idx)) ;;;
     modify (set_namespace None) ;;;
     ret (DebugMessage "Index cleared successfully"))
    (fun e => ret (DebugError (exc_str e))).

(** The loop of lines 364-372 over the documents the store streams, in the
    order it streams them. *)
Fixpoint load_api_keys (stream : list (string * StoreDoc)) : M unit :=
  match stream with
  | [] => ret tt
  | (api_key, key_data) :: rest =>
      reset <- fromisoformat (s_last_reset key_data) ;;
      expires <- fromisoformat (s_expires_at key_data) ;;
      modify (set_api_keys (insert api_key
        (mkKeyRecord (Some (s_user_id key_data)) (default 0 (s_daily_usage key_data))
           reset (Some expires)))) ;;;
      load_api_keys rest
  end.

Definition startup_event (stream : list (string * StoreDoc)) : M unit :=
  match create_index_fault with
  | Some msg => raise (Error msg)
  | None => ret tt
  end ;;;
  try_except
    (match store_get_fault w with
     | Some msg => raise (Error msg)
     | None => ret tt
     end ;;;
     load_api_keys stream)
    (fun _ => ret tt).

End Maintenance.

Section Issuance.

Variable w : World.

(** [auth.verify_id_token]: the decoded token, or the text of the
    exception. *)
Variable verify_id_token : string -> string + TokenData.

(** [str(uuid.uuid4())]. *)
Variable uuid4 : string.

(** Whether a write to collection [users], to collection [api_keys],
    raises. *)
Variable users_write_fault : option string.
Variable keys_write_fault : option string.

Local Open Scope issue_scope.

Definition verify_firebase_token (token : string) : MI TokenData :=
  match verify_id_token token with
  | inl msg => raiseI (HTTPException 401 ("Invalid token: " +:+ msg))
  | inr decoded_token => retI decoded_token
  end.

Definition users_get (user_id : string) : MI (option UserDoc) :=
  match store_get_fault w with
  | Some msg => raiseI (Error msg)
  | None => s <- getI ;; retI (users s !! user_id)
  end.

Definition users_write (f : gmap string UserDoc -> gmap string UserDoc) : MI unit :=
  match users_write_fault with
  | Some msg => raiseI (Error msg)
  | None => modifyI (set_users f)
  end.

Definition keys_set (api_key : string) (doc : StoreDoc) : MI unit :=
  match keys_write_fault with
  | Some msg => raiseI (Error msg)
  | None => modifyI (on_keys (set_db (insert api_key doc)))
  end.

(** The record written for a first-time user, lines 407-414. *)
Definition new_user_doc (user_data : TokenData) : UserDoc :=
  let email := default EmptyString (token_email user_data) in
  mkUserDoc email
    (match token_name user_data with
     | Some name => name
     | None => take_until "@" email
     end)
    (now w)
    (if contains "firebase.google.com" (sign_in_provider user_data) then "google" else "email")
    (now w).

Definition touch_login (u : UserDoc) : UserDoc :=
  mkUserDoc (u_email u) (u_display_name u) (u_created_at u) (u_auth_provider u) (now w).

Definition create_api_key (auth_header : option string) : MI KeyResponse :=
  match auth_header with
  | None => raiseI (HTTPException 401 AUTH_REQUIRED_DETAIL)
  | Some header =>
      if negb (String.prefix "Bearer " header)
      then raiseI (HTTPException 401 AUTH_REQUIRED_DETAIL)
      else
        let token := bearer_token header in
        try_exceptI
          (user_data <- verify_firebase_token token ;;
           let user_id := uid user_data in
           user_doc <- users_get user_id ;;
           match user_doc with
           | None => users_write (insert user_id (new_user_doc user_data))
           | Some _ => users_write (alter touch_login user_id)
           end ;;;
           let expires := now w + timedelta_days 30 in
           let api_key := uuid4 in
           keys_set api_key (mkStoreDoc (Some user_id) (Some 0) (Some (now w)) (Some expires)) ;;;
           modifyI (on_keys (set_api_keys (insert api_key
             (mkKeyRecord (Some (Some user_id)) 0 (now w) (Some expires))))) ;;;
           retI (mkKeyResponse api_key expires))
          (fun e => raiseI (HTTPException 401
                      ("Invalid authentication token: " +:+ exc_str e)))
  end.

End Issuance.

(** A decoded token of a user who signs in for the first time. *)
Definition sample_token : TokenData :=
  mkTokenData "u7" (Some "ada@example.org") None "password".

(** A verifier that accepts the token ["good"] only. *)
Definition sample_verifier (token : string) : string + TokenData :=
  if String.eqb token "good" then inr sample_token else inl "token rejected".

(** The cache record built from a store document, when both timestamps
    parse. *)
Definition parsed_record (d : StoreDoc) : option KeyRecord :=
  match s_last_reset d, s_expires_at d with
  | Some reset, Some expires => Some (record_of_doc d reset expires)
  | _, _ => None
  end.

(** * Properties *)

Ltac run := cbv beta iota delta [bind ret raise get modify try_except lift_collab].

(** ** Printing and sanitizing, on examples *)

Example sanitize_report :
  sanitize_namespace "My Report (v2).pdf" = "My_Report__v2_".
Proof. vm_compute. reflexivity. Qed.

Example exc_str_http : exc_str (HTTPException 400 "Invalid PDF file") = "400: Invalid PDF file".
Proof. vm_compute. reflexivity. Qed.

(** ** Validation and admission *)

Lemma check_file_size_run size st :
  check_file_size size st =
  (if size >? MAX_FILE_SIZE
   then Raise (HTTPException 400 "File size exceeds maximum limit of 10.0MB")
   else Ok tt, st).
Proof. unfold check_file_size. destruct (size >? MAX_FILE_SIZE); reflexivity. Qed.

Lemma validate_pdf_content_passes w content st :
  is_pdf content = true ->
  (exists pages, pdf_num_pages w content = Some pages /\ (pages <= MAX_PAGES)%nat) ->
  validate_pdf_content w content st = (Ok tt, st).
Proof.
  intros Hpdf (pages & Hpages & Hle). unfold validate_pdf_content.
  rewrite Hpdf, Hpages. run.
  destruct (Nat.ltb_spec MAX_PAGES pages); [lia | reflexivity].
Qed.

Lemma validate_pdf_content_fails w content st :
  is_pdf content
  && match pdf_num_pages w content with
     | Some pages => (pages <=? MAX_PAGES)%nat
     | None => false
     end = false ->
  exists detail,
    validate_pdf_content w content st = (Raise (HTTPException 400 detail), st).
Proof.
  intros H. unfold validate_pdf_content.
  destruct (is_pdf content); cbn [negb andb] in H |- *.
  - run. destruct (pdf_num_pages w content) as [pages|]; [|eexists; reflexivity].
    destruct (Nat.ltb_spec MAX_PAGES pages); [eexists; reflexivity|].
    apply Nat.leb_gt in H. lia.
  - eexists; reflexivity.
Qed.

Lemma validation_passes w content st :
  payload_ok w content = true ->
  check_file_size (Z.of_nat (String.length content)) st = (Ok tt, st)
  /\ validate_pdf_content w content st = (Ok tt, st).
Proof.
  unfold payload_ok. intros H.
  apply andb_prop in H as [H Hpages]. apply andb_prop in H as [Hsize Hpdf].
  split.
  - rewrite check_file_size_run. apply Z.leb_le in Hsize.
    destruct (Z.gtb_spec (Z.of_nat (String.length content)) MAX_FILE_SIZE); [lia | reflexivity].
  - apply validate_pdf_content_passes; [exact Hpdf|].
    destruct (pdf_num_pages w content) as [pages|]; [|discriminate].
    exists pages. split; [reflexivity|]. apply Nat.leb_le. exact Hpages.
Qed.

Lemma check_quota_run key st r :
  api_keys st !! key = Some r ->
  check_quota key st =
  (if daily_usage r >? DAILY_QUOTA
   then Raise (HTTPException 429 quota_detail)
   else Ok tt, st).
Proof.
  intros Hr. unfold check_quota. run. rewrite Hr.
  destruct (daily_usage r >? DAILY_QUOTA); reflexivity.
Qed.

(** An upload whose payload fails validation raises inside the [try] of
    [upload_pdf], and the handler turns the 400 into a 500; nothing was
    written before. *)
Lemma upload_pdf_invalid_payload w filename content key st :
  payload_ok w content = false ->
  exists detail,
    upload_pdf w filename content key st = (Raise (HTTPException 500 detail), st)
    /\ String.prefix "400: " detail = true.
Proof.
  unfold payload_ok. intros H. unfold upload_pdf.
  unfold try_except, bind at 1. rewrite check_file_size_run.
  destruct (Z.gtb_spec (Z.of_nat (String.length content)) MAX_FILE_SIZE) as [Hbig|Hsmall].
  - eexists. split; [reflexivity | vm_compute; reflexivity].
  - cbn beta iota. unfold bind at 1.
    apply Z.leb_le in Hsmall. rewrite Hsmall in H. cbn [andb] in H.
    destruct (validate_pdf_content_fails w content st H) as [detail ->].
    eexists. split; [reflexivity | destruct detail; reflexivity].
Qed.

(** ** Usage metering and the rest of the upload pipeline *)

Lemma reset_if_new_day_user_id w r : user_id (reset_if_new_day w r) = user_id r.
Proof. unfold reset_if_new_day. destruct (_ >? _); reflexivity. Qed.

Lemma reset_if_new_day_expires_at w r : expires_at (reset_if_new_day w r) = expires_at r.
Proof. unfold reset_if_new_day. destruct (_ >? _); reflexivity. Qed.

Lemma namespace_of_user_id r r' filename :
  user_id r = user_id r' -> namespace_of r filename = namespace_of r' filename.
Proof. unfold namespace_of. intros ->. reflexivity. Qed.

(** For a key already in [api_keys], [update_usage_metrics] returns; it
    writes the record (reset first when the window is over, then the new
    bytes added) and leaves the namespace pointer and the index alone. *)
Lemma update_usage_metrics_cached w key bytes st r :
  api_keys st !! key = Some r ->
  exists st1,
    update_usage_metrics w key bytes st = (Ok tt, st1)
    /\ api_keys st1 !! key = Some (add_usage bytes (reset_if_new_day w r))
    /\ (forall k, k <> key -> api_keys st1 !! k = api_keys st !! k)
    /\ CURRENT_NAMESPACE st1 = CURRENT_NAMESPACE st
    /\ pinecone st1 = pinecone st
    /\ calls st1 = calls st.
Proof.
  intros Hr. unfold update_usage_metrics. run. rewrite Hr. cbn beta iota.
  assert (Hlook : alter (add_usage bytes) key (alter (reset_if_new_day w) key (api_keys st)) !! key
                  = Some (add_usage bytes (reset_if_new_day w r))).
  { rewrite !lookup_alter_eq, Hr. reflexivity. }
  cbn [api_keys set_api_keys]. rewrite Hlook.
  unfold store_update_usage. run.
  destruct (store_update_ok w); eexists; (split; [reflexivity|]);
    cbn [api_keys set_api_keys set_db CURRENT_NAMESPACE pinecone calls];
    (split; [exact Hlook|]);
    (split; [intros k Hk; rewrite !lookup_alter_ne by congruence; reflexivity|]);
    auto.
Qed.

(** What lines 172-228 do, step by step: the loader and the splitter may
    raise; the namespace is cleared only when the index statistics list it
    and the delete call goes through; the chunks are then added. *)
Lemma index_document_run w filename content ns st :
  index_document w filename content ns st =
  match load_pdf w content with
  | inl msg => (Raise (Error msg), st)
  | inr docs =>
      match split_documents w docs with
      | inl msg => (Raise (Error msg), st)
      | inr chunks =>
          let chunks := add_metadata filename chunks in
          let st2 := log_call (IndexAdd ns chunks) (after_clear w ns st) in
          match add_documents_fault w with
          | Some msg => (Raise (Error msg), st2)
          | None =>
              (Ok (mkUploadResponse
                     ("PDF processed successfully. Created " +:+ str_of_nat (length chunks)
                      +:+ " chunks in namespace " +:+ ns +:+ ".") ns),
               set_pinecone (index_add ns chunks) st2)
          end
      end
  end.
Proof.
  unfold index_document. run.
  destruct (load_pdf w content) as [msg|docs]; run; [reflexivity|].
  destruct (split_documents w docs) as [msg|chunks]; run; [reflexivity|].
  unfold namespace_exists, after_clear, should_clear, index_delete, add_documents. run.
  destruct (describe_index_stats_ok w); cbn [andb]; run.
  - destruct (bool_decide (is_Some (pinecone st !! ns))); run.
    + destruct (index_delete_ok w); run; destruct (add_documents_fault w); reflexivity.
    + destruct (add_documents_fault w); reflexivity.
  - destruct (add_documents_fault w); reflexivity.
Qed.

(** An upload with a valid payload and a key within quota gets past the
    three checks: its usage is recorded, the namespace pointer is set, and
    only then the document is processed. *)
Lemma upload_pdf_admitted w filename content key st r :
  payload_ok w content = true ->
  api_keys st !! key = Some r ->
  daily_usage r <= DAILY_QUOTA ->
  exists st1,
    update_usage_metrics w key (Z.of_nat (String.length content)) st = (Ok tt, st1)
    /\ upload_pdf w filename content key st =
       try_except (index_document w filename content (namespace_of r filename))
         endpoint_handler (set_namespace (Some (namespace_of r filename)) st1).
Proof.
  intros Hpayload Hr Hquota.
  destruct (validation_passes w content st Hpayload) as [Hsize Hvalid].
  destruct (update_usage_metrics_cached w key (Z.of_nat (String.length content)) st r Hr)
    as (st1 & Hrun & Hlook & _).
  exists st1. split; [exact Hrun|].
  unfold upload_pdf, try_except.
  unfold bind at 1. rewrite Hsize. cbn beta iota.
  unfold bind at 1. rewrite Hvalid. cbn beta iota.
  unfold bind at 1. rewrite (check_quota_run key st r Hr).
  destruct (Z.gtb_spec (daily_usage r) DAILY_QUOTA) as [Hover|_]; [lia|]. cbn beta iota.
  unfold bind at 1. rewrite Hrun. cbn beta iota.
  unfold bind at 1, get at 1. cbn beta iota.
  unfold bind at 1. rewrite Hlook. unfold ret at 1. cbn beta iota.
  unfold bind at 1, modify at 1. cbn beta iota.
  rewrite (namespace_of_user_id _ r filename)
    by (cbn [user_id add_usage]; apply reset_if_new_day_user_id).
  reflexivity.
Qed.

Lemma upload_pdf_over_quota w filename content key st r :
  payload_ok w content = true ->
  api_keys st !! key = Some r ->
  daily_usage r > DAILY_QUOTA ->
  upload_pdf w filename content key st =
  (Raise (HTTPException 500 ("429: " +:+ quota_detail)), st).
Proof.
  intros Hpayload Hr Hover.
  destruct (validation_passes w content st Hpayload) as [Hsize Hvalid].
  unfold upload_pdf, try_except.
  unfold bind at 1. rewrite Hsize. cbn beta iota.
  unfold bind at 1. rewrite Hvalid. cbn beta iota.
  unfold bind at 1. rewrite (check_quota_run key st r Hr).
  destruct (Z.gtb_spec (daily_usage r) DAILY_QUOTA) as [_|Hle]; [reflexivity | lia].
Qed.

Lemma upload_pdf_unknown_key w filename content key st :
  payload_ok w content = true ->
  api_keys st !! key = None ->
  upload_pdf w filename content key st =
  (Raise (HTTPException 500 (exc_str (key_error key))), st).
Proof.
  intros Hpayload Hr.
  destruct (validation_passes w content st Hpayload) as [Hsize Hvalid].
  unfold upload_pdf, try_except.
  unfold bind at 1. rewrite Hsize. cbn beta iota.
  unfold bind at 1. rewrite Hvalid. cbn beta iota.
  unfold bind at 1, check_quota. run. rewrite Hr. reflexivity.
Qed.

(** The handler of the endpoints never returns and never writes. *)
Lemma endpoint_handler_run {A} (e : exception) st :
  exists status detail,
    @endpoint_handler A e st = (Raise (HTTPException status detail), st)
    /\ (e <> RateLimitExceeded -> status = 500 /\ detail = exc_str e).
Proof.
  destruct e; eexists _, _; (split; [reflexivity|]); intros H; try (split; reflexivity).
  contradiction.
Qed.

(** [index_document] touches the index and the call log only. *)
Lemma index_document_frame w filename content ns st :
  let st' := snd (index_document w filename content ns st) in
  api_keys st' = api_keys st /\ db st' = db st
  /\ CURRENT_NAMESPACE st' = CURRENT_NAMESPACE st.
Proof.
  rewrite index_document_run.
  destruct (load_pdf w content) as [msg|docs]; [auto|].
  destruct (split_documents w docs) as [msg|chunks]; [auto|].
  cbv zeta.
  assert (Hclear : api_keys (after_clear w ns st) = api_keys st
                   /\ db (after_clear w ns st) = db st
                   /\ CURRENT_NAMESPACE (after_clear w ns st) = CURRENT_NAMESPACE st).
  { unfold after_clear. destruct (should_clear w ns st); [|auto].
    destruct (index_delete_ok w); auto. }
  destruct (add_documents_fault w); exact Hclear.
Qed.

(** Once admitted, whatever happens later in the pipeline, the cache holds
    the new usage and the pointer names the namespace of this upload. *)
Lemma upload_pdf_records_usage w filename content key st r :
  payload_ok w content = true ->
  api_keys st !! key = Some r ->
  daily_usage r <= DAILY_QUOTA ->
  let st' := snd (upload_pdf w filename content key st) in
  api_keys st' !! key
    = Some (add_usage (Z.of_nat (String.length content)) (reset_if_new_day w r))
  /\ CURRENT_NAMESPACE st' = Some (namespace_of r filename).
Proof.
  intros Hpayload Hr Hquota.
  destruct (upload_pdf_admitted w filename content key st r Hpayload Hr Hquota)
    as (st1 & Hmeter & ->).
  destruct (update_usage_metrics_cached w key (Z.of_nat (String.length content)) st r Hr)
    as (st1' & Hmeter' & Hlook & _).
  rewrite Hmeter in Hmeter'. injection Hmeter' as <-.
  pose proof (index_document_frame w filename content (namespace_of r filename)
                (set_namespace (Some (namespace_of r filename)) st1)) as Hframe.
  cbv zeta in Hframe |- *. unfold try_except.
  destruct (index_document w filename content (namespace_of r filename)
              (set_namespace (Some (namespace_of r filename)) st1)) as [[resp|e] st2];
    cbn [snd] in Hframe |- *; destruct Hframe as (Hkeys & _ & Hns).
  - rewrite Hkeys, Hns. split; [exact Hlook | reflexivity].
  - destruct (@endpoint_handler_run UploadResponse e st2) as (status & detail & -> & _).
    cbn [snd]. rewrite Hkeys, Hns. split; [exact Hlook | reflexivity].
Qed.

(** ** Error classes of the endpoints *)

(** With the key cached and not expired, the dependency lets the request
    through unchanged. *)
Lemma upload_request_cached w filename content key st r :
  api_keys st !! key = Some r ->
  now w <= default DATETIME_MAX (expires_at r) ->
  upload_request w filename content key st = upload_pdf w filename content key st.
Proof.
  intros Hr Hnow. unfold upload_request, bind.
  unfold validate_api_key. run. rewrite Hr.
  destruct (Z.gtb_spec (now w) (default DATETIME_MAX (expires_at r))); [lia | reflexivity].
Qed.

(** An unexpected failure of a collaborator is answered with status 500. *)
Lemma upload_pdf_loader_error w filename content key st r msg :
  payload_ok w content = true ->
  api_keys st !! key = Some r ->
  daily_usage r <= DAILY_QUOTA ->
  load_pdf w content = inl msg ->
  fst (upload_pdf w filename content key st) = Raise (HTTPException 500 msg).
Proof.
  intros Hpayload Hr Hquota Hload.
  destruct (upload_pdf_admitted w filename content key st r Hpayload Hr Hquota)
    as (st1 & _ & ->).
  unfold try_except. rewrite index_document_run, Hload. reflexivity.
Qed.

(** C3: an upload whose payload violates validation (too large, no PDF
    magic header, unparseable or more than 50 pages) writes nothing, but
    the error it surfaces is not the 400 raised by the validators: the
    handler of [upload_pdf] re-raises it with status 500, the status of an
    unexpected failure, keeping the 400 only as text in the detail. *)
Theorem upload_invalid_payload_surfaces_500 w filename content key st :
  payload_ok w content = false ->
  exists detail,
    upload_pdf w filename content key st = (Raise (HTTPException 500 detail), st)
    /\ String.prefix "400: " detail = true.
Proof. apply upload_pdf_invalid_payload. Qed.

Lemma upload_invalid_payload_surfaces_500_witness :
  exists detail,
    upload_pdf (sample_world sample_t0) "notes.txt" "hello" "k1" (sample_state 0)
    = (Raise (HTTPException 500 detail), sample_state 0)
    /\ String.prefix "400: " detail = true.
Proof.
  apply (upload_invalid_payload_surfaces_500 (sample_world sample_t0)
           "notes.txt" "hello" "k1" (sample_state 0)).
  reflexivity.
Defined.

(** C4: on a key whose cached usage is over the quota, an upload is
    rejected by the quota check even when [last_reset] is more than a day
    old: the reset lives in [update_usage_metrics], which runs only after
    [check_quota] has passed, so the stale usage is never cleared and the
    cache is left as it was. *)
Theorem stale_usage_still_rejected w filename content key st r :
  payload_ok w content = true ->
  api_keys st !! key = Some r ->
  now w - last_reset r > timedelta_days 1 ->
  daily_usage r > DAILY_QUOTA ->
  check_quota key st = (Raise (HTTPException 429 quota_detail), st)
  /\ upload_pdf w filename content key st
     = (Raise (HTTPException 500 ("429: " +:+ quota_detail)), st).
Proof.
  intros Hpayload Hr _ Hover. split.
  - rewrite (check_quota_run key st r Hr).
    destruct (Z.gtb_spec (daily_usage r) DAILY_QUOTA); [reflexivity | lia].
  - exact (upload_pdf_over_quota w filename content key st r Hpayload Hr Hover).
Qed.

Lemma stale_usage_still_rejected_witness :
  check_quota "k1" (sample_state (DAILY_QUOTA + 1))
  = (Raise (HTTPException 429 "Daily quota exceeded"), sample_state (DAILY_QUOTA + 1))
  /\ upload_pdf (sample_world (sample_t0 + timedelta_days 2)) "b.pdf" sample_pdf "k1"
       (sample_state (DAILY_QUOTA + 1))
     = (Raise (HTTPException 500 "429: Daily quota exceeded"),
        sample_state (DAILY_QUOTA + 1)).
Proof.
  apply (stale_usage_still_rejected (sample_world (sample_t0 + timedelta_days 2))
           "b.pdf" sample_pdf "k1" (sample_state (DAILY_QUOTA + 1))
           (sample_record (DAILY_QUOTA + 1) sample_t0 (sample_t0 + timedelta_days 30))).
  - reflexivity.
  - reflexivity.
  - vm_compute. reflexivity.
  - vm_compute. reflexivity.
Defined.

(** C5: a question asked while [CURRENT_NAMESPACE] is unset raises the 400
    of line 252 inside the [try] of [ask_question]; the handler re-raises
    it with status 500, the status of an unexpected failure. *)
Theorem ask_without_document_surfaces_500 w question key st :
  CURRENT_NAMESPACE st = None ->
  ask_question w question key st
  = (Raise (HTTPException 500 ("400: " +:+ NO_DOCUMENT_DETAIL)), st).
Proof.
  intros Hns. unfold ask_question. run. rewrite Hns. reflexivity.
Qed.

Lemma ask_without_document_surfaces_500_witness :
  ask_question (sample_world sample_t0) "What color is the sky?" "k1"
    (set_namespace None (sample_state 0))
  = (Raise (HTTPException 500
       "400: No document has been uploaded yet. Please upload a PDF first."),
     set_namespace None (sample_state 0)).
Proof.
  apply (ask_without_document_surfaces_500 (sample_world sample_t0)
           "What color is the sky?" "k1" (set_namespace None (sample_state 0))).
  reflexivity.
Defined.

(** An unexpected failure of the retriever gives the same status. *)
Lemma ask_question_search_error w question key st ns msg :
  CURRENT_NAMESPACE st = Some ns ->
  ns <> EmptyString ->
  similarity_search w (default [] (pinecone st !! ns)) question = inl msg ->
  fst (ask_question w question key st) = Raise (HTTPException 500 msg).
Proof.
  intros Hns Hne Hsearch. unfold ask_question. run. rewrite Hns.
  destruct (String.eqb_spec ns EmptyString); [contradiction|].
  unfold search. run. cbn [pinecone log_call]. rewrite Hsearch. reflexivity.
Qed.

(** ** Quota *)

(** C8: [check_quota] passes at exactly [DAILY_QUOTA] cached bytes and
    raises the 429 "Daily quota exceeded" at [DAILY_QUOTA + 1].  In
    [upload_pdf] it reads the counter before the bytes of the request are
    added: a request that finds the counter within the quota passes the
    check, is processed (it returns when the collaborators answer) and
    leaves the counter over the limit, and the next upload on the key is
    rejected by the check. *)
Theorem check_quota_boundary_and_overshoot w filename content key st r :
  api_keys st !! key = Some r ->
  (daily_usage r = DAILY_QUOTA -> check_quota key st = (Ok tt, st))
  /\ (daily_usage r = DAILY_QUOTA + 1 ->
      check_quota key st = (Raise (HTTPException 429 quota_detail), st))
  /\ (payload_ok w content = true ->
      daily_usage r <= DAILY_QUOTA ->
      now w - last_reset r <= timedelta_days 1 ->
      daily_usage r + Z.of_nat (String.length content) > DAILY_QUOTA ->
      let st' := snd (upload_pdf w filename content key st) in
      check_quota key st = (Ok tt, st)
      /\ usage_of key st' = Some (daily_usage r + Z.of_nat (String.length content))
      /\ (forall docs chunks,
            load_pdf w content = inr docs ->
            split_documents w docs = inr chunks ->
            add_documents_fault w = None ->
            exists resp, fst (upload_pdf w filename content key st) = Ok resp)
      /\ check_quota key st' = (Raise (HTTPException 429 quota_detail), st')
      /\ forall w' filename' content',
            payload_ok w' content' = true ->
            upload_pdf w' filename' content' key st'
            = (Raise (HTTPException 500 ("429: " +:+ quota_detail)), st')).
Proof.
  intros Hr. split; [|split].
  - intros Heq. rewrite (check_quota_run key st r Hr), Heq. reflexivity.
  - intros Heq. rewrite (check_quota_run key st r Hr), Heq. reflexivity.
  - intros Hpayload Hquota Hwindow Hover st'.
    destruct (upload_pdf_records_usage w filename content key st r Hpayload Hr Hquota)
      as [Hlook _].
    fold st' in Hlook.
    assert (Hreset : reset_if_new_day w r = r).
    { unfold reset_if_new_day.
      destruct (Z.gtb_spec (now w - last_reset r) (timedelta_days 1)); [lia | reflexivity]. }
    rewrite Hreset in Hlook.
    assert (Hover' : daily_usage (add_usage (Z.of_nat (String.length content)) r) > DAILY_QUOTA)
      by (cbn [daily_usage add_usage]; lia).
    assert (Hcheck' : check_quota key st' = (Raise (HTTPException 429 quota_detail), st')).
    { rewrite (check_quota_run key st' _ Hlook).
      destruct (Z.gtb_spec (daily_usage (add_usage (Z.of_nat (String.length content)) r))
                  DAILY_QUOTA); [reflexivity | lia]. }
    repeat split.
    + rewrite (check_quota_run key st r Hr).
      destruct (Z.gtb_spec (daily_usage r) DAILY_QUOTA); [lia | reflexivity].
    + unfold usage_of. rewrite Hlook. reflexivity.
    + intros docs chunks Hload Hsplit Hadd.
      destruct (upload_pdf_admitted w filename content key st r Hpayload Hr Hquota)
        as (st1 & _ & ->).
      unfold try_except. rewrite index_document_run, Hload, Hsplit. cbv zeta.
      rewrite Hadd. eexists. reflexivity.
    + exact Hcheck'.
    + intros w' filename' content' Hpayload'.
      exact (upload_pdf_over_quota w' filename' content' key st' _ Hpayload' Hlook Hover').
Qed.

Lemma check_quota_boundary_and_overshoot_witness :
  let st := sample_state DAILY_QUOTA in
  let st' := snd (upload_pdf (sample_world sample_t0) "b.pdf" sample_pdf "k1" st) in
  check_quota "k1" st = (Ok tt, st)
  /\ check_quota "k1" (sample_state (DAILY_QUOTA + 1))
     = (Raise (HTTPException 429 quota_detail), sample_state (DAILY_QUOTA + 1))
  /\ usage_of "k1" st' = Some (DAILY_QUOTA + 15)
  /\ upload_pdf (sample_world (sample_t0 + 1)) "c.pdf" sample_pdf "k1" st'
     = (Raise (HTTPException 500 ("429: " +:+ quota_detail)), st').
Proof.
  intros st st'.
  destruct (check_quota_boundary_and_overshoot (sample_world sample_t0)
              "b.pdf" sample_pdf "k1" st
              (sample_record DAILY_QUOTA sample_t0 (sample_t0 + timedelta_days 30))
              eq_refl) as (Hat & _ & Hflow).
  destruct (check_quota_boundary_and_overshoot (sample_world sample_t0)
              "b.pdf" sample_pdf "k1" (sample_state (DAILY_QUOTA + 1))
              (sample_record (DAILY_QUOTA + 1) sample_t0 (sample_t0 + timedelta_days 30))
              eq_refl) as (_ & Hover & _).
  split; [apply Hat; reflexivity|].
  split; [apply Hover; reflexivity|].
  destruct Hflow as (_ & Husage & _ & _ & Hnext).
  - reflexivity.
  - vm_compute. discriminate.
  - vm_compute. discriminate.
  - vm_compute. reflexivity.
  - split; [exact Husage|]. apply Hnext. reflexivity.
Defined.

(** ** Order of metering and processing *)

(** C2 does not hold as stated: the upload below fails during text
    extraction, and the key's [daily_usage] has gone from 0 to the 15 bytes
    of the payload. *)
Lemma usage_recorded_when_extraction_fails :
  let w := sample_world_loader_down sample_t0 in
  let st' := snd (upload_pdf w "b.pdf" sample_pdf "k1" (sample_state 0)) in
  load_pdf w sample_pdf = inl "cannot read PDF"
  /\ fst (upload_pdf w "b.pdf" sample_pdf "k1" (sample_state 0))
     = Raise (HTTPException 500 "cannot read PDF")
  /\ usage_of "k1" (sample_state 0) = Some 0
  /\ usage_of "k1" st' = Some 15
  /\ usage_of "k1" st' <> usage_of "k1" (sample_state 0).
Proof. vm_compute. repeat split; discriminate. Qed.

(** C2, amended: usage is recorded right after the quota check, before the
    document is processed.  Each step's failure aborts the remainder with
    status 500.  An upload rejected by validation or by the quota check
    leaves the whole state, hence [daily_usage], unchanged; an upload that
    passed both and then fails during extraction, chunking or index
    submission has already had its byte count added to [daily_usage]
    (counted from 0 when the window was over). *)
Theorem usage_recorded_before_processing w filename content key st r :
  api_keys st !! key = Some r ->
  let res := fst (upload_pdf w filename content key st) in
  let st' := snd (upload_pdf w filename content key st) in
  (payload_ok w content = false \/ daily_usage r > DAILY_QUOTA ->
   (exists detail, res = Raise (HTTPException 500 detail)) /\ st' = st)
  /\ (payload_ok w content = true ->
      daily_usage r <= DAILY_QUOTA ->
      processing_fails w content = true ->
      (exists detail, res = Raise (HTTPException 500 detail))
      /\ api_keys st' !! key
         = Some (add_usage (Z.of_nat (String.length content)) (reset_if_new_day w r))
      /\ usage_of key st'
         = Some ((if now w - last_reset r >? timedelta_days 1 then 0 else daily_usage r)
                 + Z.of_nat (String.length content))).
Proof.
  intros Hr res st'. subst res st'. split.
  - intros Hrejected.
    destruct (payload_ok w content) eqn:Hpayload.
    + destruct Hrejected as [Hfalse|Hover]; [discriminate|].
      rewrite (upload_pdf_over_quota w filename content key st r Hpayload Hr Hover).
      split; [eexists; reflexivity | reflexivity].
    + destruct (upload_pdf_invalid_payload w filename content key st Hpayload)
        as (detail & -> & _).
      split; [eexists; reflexivity | reflexivity].
  - intros Hpayload Hquota Hfails.
    destruct (upload_pdf_records_usage w filename content key st r Hpayload Hr Hquota)
      as [Hlook _].
    split; [|split].
    + destruct (upload_pdf_admitted w filename content key st r Hpayload Hr Hquota)
        as (st1 & _ & ->).
      unfold try_except, processing_fails in *. rewrite index_document_run.
      destruct (load_pdf w content) as [msg|docs]; [eexists; reflexivity|].
      destruct (split_documents w docs) as [msg|chunks]; [eexists; reflexivity|].
      cbv zeta.
      destruct (add_documents_fault w) as [msg|]; [eexists; reflexivity | discriminate].
    + exact Hlook.
    + unfold usage_of. rewrite Hlook. unfold reset_if_new_day.
      destruct (now w - last_reset r >? timedelta_days 1); reflexivity.
Qed.

Lemma usage_recorded_before_processing_witness :
  let w := sample_world_loader_down sample_t0 in
  ((exists detail,
      fst (upload_pdf w "notes.txt" "hello" "k1" (sample_state 0))
      = Raise (HTTPException 500 detail))
   /\ snd (upload_pdf w "notes.txt" "hello" "k1" (sample_state 0)) = sample_state 0)
  /\ usage_of "k1" (snd (upload_pdf w "b.pdf" sample_pdf "k1" (sample_state 0))) = Some 15.
Proof.
  intros w.
  destruct (usage_recorded_before_processing w "notes.txt" "hello" "k1" (sample_state 0)
              (sample_record 0 sample_t0 (sample_t0 + timedelta_days 30)) eq_refl)
    as [Hrejected _].
  destruct (usage_recorded_before_processing w "b.pdf" sample_pdf "k1" (sample_state 0)
              (sample_record 0 sample_t0 (sample_t0 + timedelta_days 30)) eq_refl)
    as [_ Hfailed].
  split.
  - apply Hrejected. left. reflexivity.
  - destruct Hfailed as (_ & _ & Husage).
    + reflexivity.
    + vm_compute. discriminate.
    + reflexivity.
    + exact Husage.
Defined.

(** ** The current namespace and the index *)

Lemma lookup_index_add_ne ns ns' chunks (idx : gmap string (list Document)) :
  ns' <> ns -> index_add ns chunks idx !! ns' = idx !! ns'.
Proof.
  intros Hne. unfold index_add. destruct chunks; [reflexivity|].
  apply lookup_insert_ne. congruence.
Qed.

(** C1 does not hold as stated: with ["u1_a"] current, a successful
    upload of ["b.pdf"] moves the pointer to ["u1_b"], and the vectors
    stored under the prior namespace ["u1_a"] are still in the index. *)
Lemma prior_namespace_not_cleared :
  let st := sample_state 0 in
  let w := sample_world sample_t0 in
  let st' := snd (upload_pdf w "b.pdf" sample_pdf "k1" st) in
  CURRENT_NAMESPACE st = Some "u1_a"
  /\ (exists resp, fst (upload_pdf w "b.pdf" sample_pdf "k1" st) = Ok resp)
  /\ CURRENT_NAMESPACE st' = Some "u1_b"
  /\ pinecone st !! "u1_a" = Some sample_docs
  /\ pinecone st' !! "u1_a" = Some sample_docs.
Proof.
  cbv zeta. split; [reflexivity|]. split; [eexists; vm_compute; reflexivity|].
  vm_compute. repeat split.
Qed.

(** C1, amended: a successful upload overwrites the pointer with the
    namespace of the new document (owner id, underscore, sanitized file
    name).  What it clears is the data stored under that new namespace,
    and only when the index statistics list the namespace and the delete
    call goes through; the new chunks are then added to it.  Data under
    any other namespace, the prior current namespace included, is left as
    it was. *)
Theorem upload_sets_pointer_and_clears_target w filename content key st resp st' :
  upload_pdf w filename content key st = (Ok resp, st') ->
  exists r docs chunks,
    api_keys st !! key = Some r
    /\ namespace resp = namespace_of r filename
    /\ CURRENT_NAMESPACE st' = Some (namespace resp)
    /\ load_pdf w content = inr docs
    /\ split_documents w docs = inr chunks
    /\ pinecone st'
       = index_add (namespace resp) (add_metadata filename chunks)
           (if should_clear w (namespace resp) st && index_delete_ok w
            then delete (namespace resp) (pinecone st)
            else pinecone st)
    /\ forall ns, ns <> namespace resp -> pinecone st' !! ns = pinecone st !! ns.
Proof.
  intros Hup.
  destruct (payload_ok w content) eqn:Hpayload.
  2: { destruct (upload_pdf_invalid_payload w filename content key st Hpayload)
         as (detail & Hraise & _). congruence. }
  destruct (api_keys st !! key) as [r|] eqn:Hr.
  2: { rewrite (upload_pdf_unknown_key w filename content key st Hpayload Hr) in Hup.
       discriminate. }
  destruct (Z_gt_le_dec (daily_usage r) DAILY_QUOTA) as [Hover|Hquota].
  { rewrite (upload_pdf_over_quota w filename content key st r Hpayload Hr Hover) in Hup.
    discriminate. }
  destruct (upload_pdf_admitted w filename content key st r Hpayload Hr Hquota)
    as (st1 & Hmeter & Heq).
  destruct (update_usage_metrics_cached w key (Z.of_nat (String.length content)) st r Hr)
    as (st1' & Hmeter' & _ & _ & _ & Hidx & _).
  rewrite Hmeter in Hmeter'. injection Hmeter' as <-.
  rewrite Heq in Hup. clear Heq. unfold try_except in Hup.
  rewrite index_document_run in Hup.
  set (ns := namespace_of r filename) in *.
  destruct (load_pdf w content) as [msg|docs] eqn:Hload; [discriminate|].
  destruct (split_documents w docs) as [msg|chunks] eqn:Hsplit; [discriminate|].
  cbv zeta in Hup.
  destruct (add_documents_fault w) as [msg|]; [discriminate|].
  injection Hup as <- <-. cbn [namespace].
  assert (Hpine : pinecone (after_clear w ns (set_namespace (Some ns) st1))
                  = if should_clear w ns st && index_delete_ok w
                    then delete ns (pinecone st) else pinecone st).
  { unfold after_clear, should_clear. cbn [pinecone set_namespace]. rewrite Hidx.
    destruct (describe_index_stats_ok w && bool_decide (is_Some (pinecone st !! ns)));
      cbn [andb]; [|exact Hidx].
    destruct (index_delete_ok w); cbn [pinecone set_pinecone log_call set_namespace];
      rewrite Hidx; reflexivity. }
  assert (Hns : CURRENT_NAMESPACE (after_clear w ns (set_namespace (Some ns) st1)) = Some ns).
  { unfold after_clear.
    destruct (should_clear w ns (set_namespace (Some ns) st1)); [|reflexivity].
    destruct (index_delete_ok w); reflexivity. }
  exists r, docs, chunks.
  cbn [pinecone CURRENT_NAMESPACE set_pinecone log_call].
  rewrite Hpine, Hns.
  repeat (split; [first [reflexivity | assumption]|]).
  intros ns' Hne. rewrite lookup_index_add_ne by exact Hne.
  destruct (should_clear w ns st && index_delete_ok w); [|reflexivity].
  apply lookup_delete_ne. congruence.
Qed.

Lemma upload_sets_pointer_and_clears_target_witness :
  let st := sample_state 0 in
  let st' := snd (upload_pdf (sample_world sample_t0) "a.pdf" sample_pdf "k1" st) in
  CURRENT_NAMESPACE st' = Some "u1_a"
  /\ pinecone st' !! "u1_a"
     = Some (add_metadata "a.pdf" sample_docs).
Proof.
  intros st st'.
  destruct (upload_sets_pointer_and_clears_target (sample_world sample_t0)
              "a.pdf" sample_pdf "k1" st
              (mkUploadResponse
                 "PDF processed successfully. Created 1 chunks in namespace u1_a." "u1_a")
              st')
    as (r & docs & chunks & _ & _ & Hns & Hload & Hsplit & Hidx & _).
  - vm_compute. reflexivity.
  - split; [exact Hns|].
    rewrite Hidx. injection Hload as <-. injection Hsplit as <-.
    vm_compute. reflexivity.
Defined.

(** ** Questions *)

(** C9: when the retrieval for the active namespace returns no chunk,
    [ask_question] returns the canned answer (and the canned context), and
    the only collaborator call it makes is the similarity search; this
    holds whatever the LLM collaborator would do, and the count of LLM
    invocations is unchanged. *)
Theorem ask_without_results_skips_llm w llm question key st ns :
  CURRENT_NAMESPACE st = Some ns ->
  ns <> EmptyString ->
  similarity_search w (default [] (pinecone st !! ns)) question = inr [] ->
  let st' := snd (ask_question (with_llm w llm) question key st) in
  fst (ask_question (with_llm w llm) question key st)
  = Ok (mkQuestionResponse FALLBACK_ANSWER (Some FALLBACK_CONTEXT))
  /\ calls st' = SimilaritySearch ns question :: calls st
  /\ llm_call_count st' = llm_call_count st.
Proof.
  intros Hns Hne Hsearch. cbv zeta. unfold ask_question. run. rewrite Hns.
  destruct (String.eqb_spec ns EmptyString); [contradiction|].
  unfold search. run. cbn [pinecone log_call similarity_search with_llm].
  rewrite Hsearch. cbn [fst snd calls]. repeat split.
Qed.

Lemma ask_without_results_skips_llm_witness :
  let w := with_llm (sample_world sample_t0) (fun _ => inl "LLM is down") in
  let st := set_pinecone (fun _ => ∅) (sample_state 0) in
  fst (ask_question w "What color is the sky?" "k1" st)
  = Ok (mkQuestionResponse
          "I don't have enough information in the document to answer this question."
          (Some "No relevant content found in the document."))
  /\ llm_call_count (snd (ask_question w "What color is the sky?" "k1" st)) = 0%nat.
Proof.
  intros w st.
  destruct (ask_without_results_skips_llm (sample_world sample_t0)
              (fun _ => inl "LLM is down") "What color is the sky?" "k1" st "u1_a")
    as (Hanswer & _ & Hcount).
  - reflexivity.
  - discriminate.
  - reflexivity.
  - split; [exact Hanswer | exact Hcount].
Defined.

(** With at least one chunk retrieved the LLM is invoked once. *)
Lemma ask_with_results_invokes_llm w question key st ns doc rest :
  CURRENT_NAMESPACE st = Some ns ->
  ns <> EmptyString ->
  similarity_search w (default [] (pinecone st !! ns)) question = inr (doc :: rest) ->
  llm_call_count (snd (ask_question w question key st)) = S (llm_call_count st).
Proof.
  intros Hns Hne Hsearch. unfold ask_question. run. rewrite Hns.
  destruct (String.eqb_spec ns EmptyString); [contradiction|].
  unfold search, invoke_llm. run. cbn [pinecone log_call]. rewrite Hsearch.
  cbn beta iota.
  destruct (llm_invoke w _); unfold endpoint_handler; run; reflexivity.
Qed.

(** ** Key validation *)

Lemma validate_api_key_cached w key st r :
  api_keys st !! key = Some r ->
  validate_api_key w key st
  = (if now w >? default DATETIME_MAX (expires_at r)
     then Raise (HTTPException 401 expired_detail)
     else Ok key, st).
Proof.
  intros Hr. unfold validate_api_key. run. rewrite Hr.
  destruct (now w >? default DATETIME_MAX (expires_at r)); reflexivity.
Qed.

(** The store path of [validate_api_key], case by case; every exception
    raised inside its [try] comes out as a 401. *)
Lemma validate_api_key_uncached w key st :
  api_keys st !! key = None ->
  validate_api_key w key st
  = match store_get_fault w with
    | Some msg => (Raise (HTTPException 401 ("Error validating API key: " +:+ msg)), st)
    | None =>
        match db st !! key with
        | None =>
            (Raise (HTTPException 401 ("Error validating API key: "
                      +:+ exc_str (HTTPException 401 "Invalid API key"))), st)
        | Some d =>
            match s_expires_at d with
            | None =>
                (Raise (HTTPException 401 ("Error validating API key: "
                          +:+ "fromisoformat: argument must be str")), st)
            | Some e =>
                if now w >? e
                then (Raise (HTTPException 401 ("Error validating API key: "
                               +:+ exc_str (HTTPException 401 expired_detail))), st)
                else
                  match s_last_reset d with
                  | None =>
                      (Raise (HTTPException 401 ("Error validating API key: "
                                +:+ "fromisoformat: argument must be str")), st)
                  | Some reset =>
                      (Ok key,
                       set_api_keys (insert key
                         (mkKeyRecord (Some (s_user_id d)) (default 0 (s_daily_usage d))
                            reset (Some e))) st)
                  end
            end
        end
    end.
Proof.
  intros Hr. unfold validate_api_key, store_get, fromisoformat. run. rewrite Hr. run.
  destruct (store_get_fault w) as [msg|]; run; [reflexivity|].
  destruct (db st !! key) as [d|]; run; [|reflexivity].
  destruct (s_expires_at d) as [e|]; run; [|reflexivity].
  destruct (now w >? e); run; [reflexivity|].
  destruct (s_last_reset d); reflexivity.
Qed.

(** C7 does not hold as stated at the boundary: at the instant
    [now = expires_at] the key validates, although [now < expires_at] does
    not hold. *)
Lemma validate_succeeds_at_expiry_instant :
  let expires := sample_t0 + timedelta_days 30 in
  api_keys (sample_state 0) !! "k1" = Some (sample_record 0 sample_t0 expires)
  /\ validate_api_key (sample_world expires) "k1" (sample_state 0)
     = (Ok "k1", sample_state 0)
  /\ ~ (now (sample_world expires) < expires).
Proof.
  cbv zeta. split; [reflexivity|]. split; [vm_compute; reflexivity|].
  cbn [now sample_world]. lia.
Qed.

(** C7, amended: [validate_api_key] fails with status 401 whenever
    [now > expires_at], for a record in the cache and for a record only in
    the store, and when the key is in neither.  A record with an expiry is
    valid while [now <= expires_at]: a cached one validates exactly then
    (the instant [now = expires_at] included), and whenever validation
    succeeds the record then cached for the key has no expiry earlier than
    [now]. *)
Theorem validate_api_key_expiry w key st :
  (forall r e, api_keys st !! key = Some r -> expires_at r = Some e ->
     (now w > e ->
      validate_api_key w key st = (Raise (HTTPException 401 expired_detail), st))
     /\ (now w <= e -> validate_api_key w key st = (Ok key, st)))
  /\ (forall d e, api_keys st !! key = None -> db st !! key = Some d ->
        s_expires_at d = Some e -> now w > e ->
        exists detail,
          validate_api_key w key st = (Raise (HTTPException 401 detail), st))
  /\ (api_keys st !! key = None -> db st !! key = None ->
      exists detail,
        validate_api_key w key st = (Raise (HTTPException 401 detail), st))
  /\ (forall key' st', validate_api_key w key st = (Ok key', st') ->
      key' = key
      /\ exists r, api_keys st' !! key = Some r
                   /\ forall e, expires_at r = Some e -> now w <= e).
Proof.
  split; [|split; [|split]].
  - intros r e Hr He. rewrite (validate_api_key_cached w key st r Hr), He. cbn [from_option id].
    split; intros Hnow; destruct (Z.gtb_spec (now w) e); (reflexivity || lia).
  - intros d e Hr Hd He Hnow. rewrite (validate_api_key_uncached w key st Hr).
    destruct (store_get_fault w); [eexists; reflexivity|].
    rewrite Hd, He. destruct (Z.gtb_spec (now w) e); [eexists; reflexivity | lia].
  - intros Hr Hd. rewrite (validate_api_key_uncached w key st Hr).
    destruct (store_get_fault w); [eexists; reflexivity|].
    rewrite Hd. eexists; reflexivity.
  - intros key' st' Hok.
    destruct (api_keys st !! key) as [r|] eqn:Hr.
    + rewrite (validate_api_key_cached w key st r Hr) in Hok.
      destruct (Z.gtb_spec (now w) (default DATETIME_MAX (expires_at r))) as [|Hle];
        [discriminate|].
      injection Hok as <- <-. split; [reflexivity|].
      exists r. split; [exact Hr|]. intros e He. rewrite He in Hle. exact Hle.
    + rewrite (validate_api_key_uncached w key st Hr) in Hok.
      destruct (store_get_fault w); [discriminate|].
      destruct (db st !! key) as [d|]; [|discriminate].
      destruct (s_expires_at d) as [e|]; [|discriminate].
      destruct (Z.gtb_spec (now w) e) as [|Hle]; [discriminate|].
      destruct (s_last_reset d) as [reset|]; [|discriminate].
      injection Hok as <- <-. split; [reflexivity|].
      eexists. split; [apply lookup_insert_eq|].
      cbn [expires_at]. intros e' [= <-]. exact Hle.
Qed.

Lemma validate_api_key_expiry_witness :
  let expires := sample_t0 + timedelta_days 30 in
  let store_only :=
    mkState ∅ {[ "k2" := mkStoreDoc (Some "u2") (Some 0) (Some sample_t0) (Some expires) ]}
      None ∅ [] in
  validate_api_key (sample_world (expires + 1)) "k1" (sample_state 0)
  = (Raise (HTTPException 401 expired_detail), sample_state 0)
  /\ validate_api_key (sample_world expires) "k1" (sample_state 0)
     = (Ok "k1", sample_state 0)
  /\ (exists detail,
        validate_api_key (sample_world (expires + 1)) "k2" store_only
        = (Raise (HTTPException 401 detail), store_only))
  /\ (exists detail,
        validate_api_key (sample_world sample_t0) "k3" store_only
        = (Raise (HTTPException 401 detail), store_only)).
Proof.
  intros expires store_only.
  destruct (validate_api_key_expiry (sample_world (expires + 1)) "k1" (sample_state 0))
    as (Hcached & _).
  destruct (validate_api_key_expiry (sample_world expires) "k1" (sample_state 0))
    as (Hcached' & _).
  destruct (validate_api_key_expiry (sample_world (expires + 1)) "k2" store_only)
    as (_ & Hstore & _).
  destruct (validate_api_key_expiry (sample_world sample_t0) "k3" store_only)
    as (_ & _ & Habsent & _).
  split; [|split; [|split]].
  - apply (Hcached (sample_record 0 sample_t0 expires) expires eq_refl eq_refl).
    cbn [now sample_world]. lia.
  - apply (Hcached' (sample_record 0 sample_t0 expires) expires eq_refl eq_refl).
    cbn [now sample_world]. lia.
  - apply (Hstore (mkStoreDoc (Some "u2") (Some 0) (Some sample_t0) (Some expires))
             expires eq_refl eq_refl eq_refl).
    cbn [now sample_world]. lia.
  - apply Habsent; reflexivity.
Defined.

(** C10: a cached record without ["expires_at"] is compared with
    [datetime.max], so [validate_api_key] accepts its key at every time.
    The entry [update_usage_metrics] creates for a key found neither in
    the cache nor in the store is such a record. *)
Theorem record_without_expiry_never_expires w key st :
  is_datetime (now w) ->
  (forall r, api_keys st !! key = Some r -> expires_at r = None ->
     validate_api_key w key st = (Ok key, st))
  /\ (forall w0 st0 bytes,
        api_keys st0 !! key = None -> db st0 !! key = None ->
        store_get_fault w0 = None ->
        st = snd (update_usage_metrics w0 key bytes st0) ->
        fst (update_usage_metrics w0 key bytes st0) = Ok tt
        /\ api_keys st !! key = Some (mkKeyRecord None bytes (now w0) None)
        /\ validate_api_key w key st = (Ok key, st)).
Proof.
  intros [_ Hmax].
  assert (Hnone : forall r, api_keys st !! key = Some r -> expires_at r = None ->
                            validate_api_key w key st = (Ok key, st)).
  { intros r Hr He. rewrite (validate_api_key_cached w key st r Hr), He. cbn [from_option id].
    destruct (Z.gtb_spec (now w) DATETIME_MAX); [lia | reflexivity]. }
  split; [exact Hnone|].
  intros w0 st0 bytes Hr Hd Hget ->.
  assert (Hrun : exists st1,
             update_usage_metrics w0 key bytes st0 = (Ok tt, st1)
             /\ api_keys st1 !! key = Some (mkKeyRecord None bytes (now w0) None)).
  { unfold update_usage_metrics, store_get, store_update_usage. run.
    rewrite Hr, Hget. run. rewrite Hd. cbn [api_keys set_api_keys].
    assert (Hlook : alter (add_usage bytes) key
                      (alter (reset_if_new_day w0) key
                         (<[key := mkKeyRecord None 0 (now w0) None]> (api_keys st0))) !! key
                    = Some (mkKeyRecord None bytes (now w0) None)).
    { rewrite !lookup_alter_eq, lookup_insert_eq. cbn [fmap option_fmap option_map].
      unfold reset_if_new_day. cbn [last_reset].
      destruct (Z.gtb_spec (now w0 - now w0) (timedelta_days 1)) as [Hgt|_].
      - unfold timedelta_days, MICROS_PER_DAY in Hgt. lia.
      - reflexivity. }
    rewrite Hlook. destruct (store_update_ok w0); eexists; (split; [reflexivity | exact Hlook]). }
  destruct Hrun as (st1 & Hrun & Hlook). rewrite Hrun in Hnone |- *.
  cbn [fst snd] in Hnone |- *.
  split; [reflexivity|]. split; [exact Hlook|].
  apply (Hnone _ Hlook). reflexivity.
Qed.

Lemma record_without_expiry_never_expires_witness :
  let st0 := mkState ∅ ∅ None ∅ [] in
  let st := snd (update_usage_metrics (sample_world sample_t0) "k9" 15 st0) in
  is_datetime DATETIME_MAX
  /\ api_keys st !! "k9" = Some (mkKeyRecord None 15 sample_t0 None)
  /\ validate_api_key (sample_world DATETIME_MAX) "k9" st = (Ok "k9", st).
Proof.
  intros st0 st.
  assert (Hdt : is_datetime (now (sample_world DATETIME_MAX))).
  { unfold is_datetime. cbn [now sample_world]. vm_compute. split; discriminate. }
  destruct (record_without_expiry_never_expires (sample_world DATETIME_MAX) "k9" st Hdt)
    as [_ Hdegraded].
  destruct (Hdegraded (sample_world sample_t0) st0 15 eq_refl eq_refl eq_refl eq_refl)
    as (_ & Hlook & Hvalid).
  split; [exact Hdt|]. split; [exact Hlook | exact Hvalid].
Defined.

(** ** Namespace names *)

Lemma substring_0_short (s : string) (n : nat) :
  (String.length s <= n)%nat -> String.substring 0 n s = s.
Proof.
  revert n. induction s as [|c s IH]; intros [|n] Hlen; simpl in *; try reflexivity; try lia.
  f_equal. apply IH. lia.
Qed.

Lemma substring_0_append (s t : string) :
  String.substring 0 (String.length s) (s +:+ t) = s.
Proof.
  induction s as [|c s IH]; simpl.
  - destruct t; reflexivity.
  - f_equal. exact IH.
Qed.

Lemma substring_skip_append (s t : string) (m : nat) :
  String.substring (String.length s) m (s +:+ t) = String.substring 0 m t.
Proof. induction s as [|c s IH]; simpl; [reflexivity | exact IH]. Qed.

Lemma length_append (s t : string) :
  String.length (s +:+ t) = (String.length s + String.length t)%nat.
Proof. induction s as [|c s IH]; simpl; [reflexivity | f_equal; exact IH]. Qed.

(** The truncation of [sanitize_namespace] keeps the first 50 characters. *)
Lemma sanitize_namespace_truncates name :
  sanitize_namespace name = String.substring 0 50 (clean_name name).
Proof.
  unfold sanitize_namespace, clean_name.
  destruct (Nat.ltb_spec 50 (String.length (re_sub_non_alnum (str_replace_empty ".pdf" name))));
    [reflexivity|].
  symmetry. apply substring_0_short. assumption.
Qed.

(** Two file names whose cleaned forms agree on their first 50 characters
    get the same namespace under the same owner. *)
Lemma namespace_collision r name1 name2 :
  String.substring 0 50 (clean_name name1) = String.substring 0 50 (clean_name name2) ->
  namespace_of r name1 = namespace_of r name2.
Proof.
  intros H. unfold namespace_of. rewrite !sanitize_namespace_truncates, H. reflexivity.
Qed.

Example namespace_of_report :
  namespace_of (sample_record 0 sample_t0 sample_t0) "My Report (v2).pdf"
  = "u1_My_Report__v2_".
Proof. vm_compute. reflexivity. Qed.

Example namespace_collision_long_names :
  namespace_of (sample_record 0 sample_t0 sample_t0)
    "0123456789012345678901234567890123456789012345678901234-draft.pdf"
  = namespace_of (sample_record 0 sample_t0 sample_t0)
    "0123456789012345678901234567890123456789012345678901234-final.pdf".
Proof. vm_compute. reflexivity. Qed.

Lemma remove_pdf_no_dot (stem : string) :
  no_dot stem = true -> str_replace_empty ".pdf" (stem +:+ ".pdf") = stem.
Proof.
  unfold str_replace_empty. induction stem as [|c stem IH]; intros Hdot.
  - reflexivity.
  - cbn [no_dot] in Hdot. apply andb_prop in Hdot as [Hc Hrest].
    change (String c stem +:+ ".pdf") with (String c (stem +:+ ".pdf")).
    assert (Hprefix : String.prefix ".pdf" (String c (stem +:+ ".pdf")) = false).
    { change (String.prefix ".pdf" (String c (stem +:+ ".pdf")))
        with (if ascii_dec "."%char c then String.prefix "pdf" (stem +:+ ".pdf") else false).
      destruct (ascii_dec "."%char c) as [<-|_]; [discriminate | reflexivity]. }
    change (remove_all_from ".pdf" 0 (String c (stem +:+ ".pdf")))
      with (if String.prefix ".pdf" (String c (stem +:+ ".pdf"))
            then remove_all_from ".pdf" (String.length ".pdf" - 1) (stem +:+ ".pdf")
            else String c (remove_all_from ".pdf" 0 (stem +:+ ".pdf"))).
    rewrite Hprefix, (IH Hrest). reflexivity.
Qed.

Lemma strip_pdf_suffix_append (stem : string) :
  strip_pdf_suffix (stem +:+ ".pdf") = stem.
Proof.
  unfold strip_pdf_suffix. rewrite length_append. cbn [String.length].
  replace (String.length stem + 4 - 4)%nat with (String.length stem) by lia.
  rewrite substring_skip_append, substring_0_append.
  destruct (Nat.leb_spec 4 (String.length stem + 4)); [reflexivity | lia].
Qed.

(** On an ordinary name, a stem without dot followed by [.pdf], the code
    and the transform of the specification give the same namespace. *)
Lemma sanitize_agrees_on_plain_names (stem : string) :
  no_dot stem = true ->
  sanitize_namespace (stem +:+ ".pdf") = spec_sanitize (stem +:+ ".pdf").
Proof.
  intros Hdot. rewrite sanitize_namespace_truncates. unfold clean_name, spec_sanitize.
  rewrite (remove_pdf_no_dot stem Hdot), strip_pdf_suffix_append. reflexivity.
Qed.

(** C6: [sanitize_namespace] does not strip the [.pdf] suffix, it removes
    every occurrence of [.pdf] in the name ([str.replace]); on a file name
    with [.pdf] inside, the namespace differs from the one the stated
    transform gives. *)
Theorem sanitize_drops_every_pdf_occurrence :
  sanitize_namespace "notes.pdf.v2.pdf" = "notes_v2"
  /\ spec_sanitize "notes.pdf.v2.pdf" = "notes_pdf_v2"
  /\ namespace_of (sample_record 0 sample_t0 sample_t0) "notes.pdf.v2.pdf" = "u1_notes_v2"
  /\ spec_namespace "u1" "notes.pdf.v2.pdf" = "u1_notes_pdf_v2".
Proof. vm_compute. repeat split. Qed.

(** * Further properties of the code *)

(** ** [sanitize_namespace] *)

Lemma length_substring_0 (n : nat) (s : string) :
  (String.length (String.substring 0 n s) <= n)%nat.
Proof.
  revert s. induction n as [|n IH]; intros [|c s]; simpl; try lia.
  specialize (IH s). lia.
Qed.

Lemma forallb_chars_substring_0 f (n : nat) (s : string) :
  forallb_chars f s = true -> forallb_chars f (String.substring 0 n s) = true.
Proof.
  revert s. induction n as [|n IH]; intros [|c s] H; simpl in *; try reflexivity.
  apply andb_prop in H as [Hc Hs]. rewrite Hc, (IH s Hs). reflexivity.
Qed.

Lemma re_sub_non_alnum_chars (s : string) :
  forallb_chars is_namespace_char (re_sub_non_alnum s) = true.
Proof.
  unfold re_sub_non_alnum. induction s as [|c s IH]; simpl; [reflexivity|].
  rewrite IH, andb_true_r. unfold is_namespace_char.
  destruct (is_ascii_alnum c) eqn:Hc; [rewrite Hc; reflexivity | reflexivity].
Qed.

Lemma re_sub_non_alnum_fixed (s : string) :
  forallb_chars is_namespace_char s = true -> re_sub_non_alnum s = s.
Proof.
  unfold re_sub_non_alnum. induction s as [|c s IH]; simpl; intros H; [reflexivity|].
  apply andb_prop in H as [Hc Hs]. rewrite (IH Hs). f_equal.
  unfold is_namespace_char in Hc. destruct (is_ascii_alnum c); [reflexivity|].
  cbn [orb] in Hc. apply Ascii.eqb_eq in Hc. congruence.
Qed.

Lemma namespace_chars_no_dot (s : string) :
  forallb_chars is_namespace_char s = true -> no_dot s = true.
Proof.
  induction s as [|c s IH]; simpl; intros H; [reflexivity|].
  apply andb_prop in H as [Hc Hs]. rewrite (IH Hs), andb_true_r.
  destruct (Ascii.eqb_spec c "."%char) as [->|_]; [discriminate | reflexivity].
Qed.

Lemma remove_pdf_fixed (s : string) :
  no_dot s = true -> str_replace_empty ".pdf" s = s.
Proof.
  unfold str_replace_empty. induction s as [|c s IH]; intros Hdot; [reflexivity|].
  cbn [no_dot] in Hdot. apply andb_prop in Hdot as [Hc Hrest].
  assert (Hprefix : String.prefix ".pdf" (String c s) = false).
  { change (String.prefix ".pdf" (String c s))
      with (if ascii_dec "."%char c then String.prefix "pdf" s else false).
    destruct (ascii_dec "."%char c) as [<-|_]; [discriminate | reflexivity]. }
  change (remove_all_from ".pdf" 0 (String c s))
    with (if String.prefix ".pdf" (String c s)
          then remove_all_from ".pdf" (String.length ".pdf" - 1) s
          else String c (remove_all_from ".pdf" 0 s)).
  rewrite Hprefix, (IH Hrest). reflexivity.
Qed.

Lemma sanitize_namespace_length name :
  (String.length (sanitize_namespace name) <= 50)%nat.
Proof. rewrite sanitize_namespace_truncates. apply length_substring_0. Qed.

Lemma sanitize_namespace_chars name :
  forallb_chars is_namespace_char (sanitize_namespace name) = true.
Proof.
  rewrite sanitize_namespace_truncates.
  apply forallb_chars_substring_0, re_sub_non_alnum_chars.
Qed.

(** X1: whatever the file name, the sanitized name has at most 50
    characters and consists of ASCII letters, digits and underscores
    only. *)
Theorem sanitize_namespace_safe name :
  (String.length (sanitize_namespace name) <= 50)%nat
  /\ forallb_chars is_namespace_char (sanitize_namespace name) = true.
Proof. split; [apply sanitize_namespace_length | apply sanitize_namespace_chars]. Qed.

(** X2: sanitizing is idempotent: a sanitized name is left as it is. *)
Theorem sanitize_namespace_idempotent name :
  sanitize_namespace (sanitize_namespace name) = sanitize_namespace name.
Proof.
  pose proof (sanitize_namespace_length name) as Hlen.
  pose proof (sanitize_namespace_chars name) as Hchars.
  rewrite (sanitize_namespace_truncates (sanitize_namespace name)). unfold clean_name.
  rewrite (remove_pdf_fixed _ (namespace_chars_no_dot _ Hchars)).
  rewrite (re_sub_non_alnum_fixed _ Hchars).
  apply substring_0_short. exact Hlen.
Qed.

(** The namespace of an upload is never the empty string. *)
Lemma namespace_of_nonempty r filename : namespace_of r filename <> EmptyString.
Proof.
  unfold namespace_of. intros H. apply (f_equal String.length) in H.
  rewrite !length_append in H. cbn [String.length] in H. lia.
Qed.

(** ** [validate_api_key] *)

Lemma validate_api_key_cases w key st :
  match validate_api_key w key st with
  | (Ok k, st') =>
      k = key
      /\ db st' = db st /\ CURRENT_NAMESPACE st' = CURRENT_NAMESPACE st
      /\ pinecone st' = pinecone st /\ calls st' = calls st
      /\ is_Some (api_keys st' !! key)
      /\ forall k', k' <> key -> api_keys st' !! k' = api_keys st !! k'
  | (Raise e, st') => st' = st /\ exists detail, e = HTTPException 401 detail
  end.
Proof.
  destruct (api_keys st !! key) as [r|] eqn:Hr.
  - rewrite (validate_api_key_cached w key st r Hr).
    destruct (now w >? default DATETIME_MAX (expires_at r)).
    + split; [reflexivity | eexists; reflexivity].
    + rewrite Hr. repeat split; eauto.
  - rewrite (validate_api_key_uncached w key st Hr).
    destruct (store_get_fault w); [split; [reflexivity | eexists; reflexivity]|].
    destruct (db st !! key) as [d|]; [|split; [reflexivity | eexists; reflexivity]].
    destruct (s_expires_at d) as [e|]; [|split; [reflexivity | eexists; reflexivity]].
    destruct (now w >? e); [split; [reflexivity | eexists; reflexivity]|].
    destruct (s_last_reset d) as [reset|]; [|split; [reflexivity | eexists; reflexivity]].
    cbn [db CURRENT_NAMESPACE pinecone calls api_keys set_api_keys].
    repeat split; try reflexivity.
    + rewrite lookup_insert_eq. eauto.
    + intros k' Hk'. apply lookup_insert_ne. congruence.
Qed.

(** X3: every failure of [validate_api_key] is a 401 and leaves the whole
    state as it was; a success returns the key it was given, never writes
    to the store, the pointer or the index, and changes the cache at most
    at that key, which is cached afterwards. *)
Theorem validate_api_key_outcomes w key st :
  match validate_api_key w key st with
  | (Ok k, st') =>
      k = key
      /\ db st' = db st /\ CURRENT_NAMESPACE st' = CURRENT_NAMESPACE st
      /\ pinecone st' = pinecone st /\ calls st' = calls st
      /\ is_Some (api_keys st' !! key)
      /\ forall k', k' <> key -> api_keys st' !! k' = api_keys st !! k'
  | (Raise e, st') => st' = st /\ exists detail, e = HTTPException 401 detail
  end.
Proof. apply validate_api_key_cases. Qed.

(** X4: a key found only in the store, with both timestamps readable and
    not expired, validates and is cached with the store's values; from then
    on it validates from the cache alone, with no change of state, at every
    time up to its expiry and whatever has become of the store (down,
    record deleted or changed). *)
Theorem validate_cold_then_warm w key st d expires reset :
  api_keys st !! key = None ->
  store_get_fault w = None ->
  db st !! key = Some d ->
  s_expires_at d = Some expires ->
  s_last_reset d = Some reset ->
  now w <= expires ->
  let st' := set_api_keys (insert key (record_of_doc d reset expires)) st in
  validate_api_key w key st = (Ok key, st')
  /\ forall w' store',
       now w' <= expires ->
       validate_api_key w' key (set_db (fun _ => store') st')
       = (Ok key, set_db (fun _ => store') st').
Proof.
  intros Hr Hget Hd He Hreset Hnow st'. split.
  - rewrite (validate_api_key_uncached w key st Hr), Hget, Hd, He, Hreset.
    destruct (Z.gtb_spec (now w) expires); [lia | reflexivity].
  - intros w' store' Hnow'.
    rewrite (validate_api_key_cached w' key _ (record_of_doc d reset expires)).
    + cbn [expires_at record_of_doc from_option id].
      destruct (Z.gtb_spec (now w') expires); [lia | reflexivity].
    + cbn [api_keys set_db set_api_keys st']. apply lookup_insert_eq.
Qed.

Lemma validate_cold_then_warm_witness :
  let expires := sample_t0 + timedelta_days 30 in
  let d := mkStoreDoc (Some "u2") (Some 7) (Some sample_t0) (Some expires) in
  let st := mkState ∅ {[ "k2" := d ]} None ∅ [] in
  let st' := set_api_keys (insert "k2" (record_of_doc d sample_t0 expires)) st in
  validate_api_key (sample_world sample_t0) "k2" st = (Ok "k2", st')
  /\ validate_api_key (sample_world expires) "k2" (set_db (fun _ => ∅) st')
     = (Ok "k2", set_db (fun _ => ∅) st').
Proof.
  intros expires d st st'.
  destruct (validate_cold_then_warm (sample_world sample_t0) "k2" st d expires sample_t0)
    as [Hcold Hwarm]; try reflexivity.
  - cbn [now sample_world]. unfold expires, timedelta_days, MICROS_PER_DAY. lia.
  - split; [exact Hcold|]. apply Hwarm. cbn [now sample_world]. lia.
Defined.

(** ** [update_usage_metrics] *)

Lemma alter_present {A} (f : A -> A) (m : gmap string A) (k : string) (x : A) :
  m !! k = Some x -> alter f k m = <[k := f x]> m.
Proof.
  intros Hx. apply map_eq. intros j. destruct (decide (k = j)) as [<-|Hne].
  - rewrite lookup_alter_eq, lookup_insert_eq, Hx. reflexivity.
  - rewrite lookup_alter_ne, lookup_insert_ne by exact Hne. reflexivity.
Qed.

Lemma update_usage_metrics_cached_run w key bytes st r :
  api_keys st !! key = Some r ->
  update_usage_metrics w key bytes st = (Ok tt, metered w key bytes r st).
Proof.
  intros Hr.
  assert (Hst : set_api_keys (alter (add_usage bytes) key)
                  (set_api_keys (alter (reset_if_new_day w) key) st)
                = set_api_keys (insert key (add_usage bytes (reset_if_new_day w r))) st).
  { unfold set_api_keys. cbn [api_keys db CURRENT_NAMESPACE pinecone calls].
    rewrite (alter_present (reset_if_new_day w) _ key r Hr).
    rewrite (alter_present (add_usage bytes) _ key (reset_if_new_day w r))
      by apply lookup_insert_eq.
    rewrite insert_insert_eq. reflexivity. }
  unfold update_usage_metrics. run. rewrite Hr. cbn beta iota.
  rewrite Hst. cbn [api_keys set_api_keys]. rewrite lookup_insert_eq.
  unfold store_update_usage, metered. run.
  destruct (store_update_ok w); reflexivity.
Qed.

(** The first lines of [update_usage_metrics] on a key that is not cached:
    the store is read, and the function goes on as for a cached key with
    the record just built. *)
Lemma update_usage_metrics_uncached_run w key bytes st :
  api_keys st !! key = None ->
  update_usage_metrics w key bytes st
  = match store_get_fault w with
    | Some msg => (Raise (Error msg), st)
    | None =>
        match db st !! key with
        | Some d =>
            match s_last_reset d, s_expires_at d with
            | Some reset, Some expires =>
                (Ok tt, metered w key bytes (record_of_doc d reset expires) st)
            | _, _ => (Raise (Error "fromisoformat: argument must be str"), st)
            end
        | None => (Ok tt, metered w key bytes (mkKeyRecord None 0 (now w) None) st)
        end
    end.
Proof.
  intros Hr.
  assert (Hgo : forall r,
    (Ok tt, metered w key bytes r st)
    = update_usage_metrics w key bytes (set_api_keys (insert key r) st)).
  { intros r.
    rewrite (update_usage_metrics_cached_run w key bytes _ r)
      by (cbn [api_keys set_api_keys]; apply lookup_insert_eq).
    unfold metered. cbn [api_keys set_api_keys db CURRENT_NAMESPACE pinecone calls].
    unfold set_api_keys, set_db. cbn [api_keys db CURRENT_NAMESPACE pinecone calls].
    rewrite insert_insert_eq. reflexivity. }
  destruct (store_get_fault w) as [msg|] eqn:Hget.
  { unfold update_usage_metrics, store_get. run. rewrite Hr, Hget. reflexivity. }
  destruct (db st !! key) as [d|] eqn:Hd.
  - destruct (s_last_reset d) as [reset|] eqn:Hreset.
    + destruct (s_expires_at d) as [expires|] eqn:He.
      * rewrite Hgo. unfold update_usage_metrics at 1, store_get, fromisoformat. run.
        rewrite Hr, Hget. run. rewrite Hd, Hreset, He. run.
        unfold update_usage_metrics. run. cbn [api_keys set_api_keys].
        rewrite lookup_insert_eq. reflexivity.
      * unfold update_usage_metrics, store_get, fromisoformat. run.
        rewrite Hr, Hget. run. rewrite Hd, Hreset, He. reflexivity.
    + unfold update_usage_metrics, store_get, fromisoformat. run.
      rewrite Hr, Hget. run. rewrite Hd, Hreset. reflexivity.
  - rewrite Hgo. unfold update_usage_metrics at 1, store_get. run.
    rewrite Hr, Hget. run. rewrite Hd. run.
    unfold update_usage_metrics. run. cbn [api_keys set_api_keys].
    rewrite lookup_insert_eq. reflexivity.
Qed.

Lemma metered_lookup w key bytes r st :
  api_keys (metered w key bytes r st) !! key
  = Some (add_usage bytes (reset_if_new_day w r)).
Proof.
  unfold metered. destruct (store_update_ok w);
    cbn [api_keys set_db set_api_keys]; apply lookup_insert_eq.
Qed.

Lemma metered_frame w key bytes r st :
  CURRENT_NAMESPACE (metered w key bytes r st) = CURRENT_NAMESPACE st
  /\ pinecone (metered w key bytes r st) = pinecone st
  /\ calls (metered w key bytes r st) = calls st
  /\ forall k, k <> key ->
       api_keys (metered w key bytes r st) !! k = api_keys st !! k
       /\ db (metered w key bytes r st) !! k = db st !! k.
Proof.
  unfold metered. destruct (store_update_ok w);
    cbn [api_keys db CURRENT_NAMESPACE pinecone calls set_db set_api_keys];
    repeat split; try reflexivity.
  - apply lookup_insert_ne. congruence.
  - apply lookup_alter_ne. congruence.
  - apply lookup_insert_ne. congruence.
Qed.

(** X5: usage accumulates inside the window and restarts after it.  After
    a first call inside the window of [last_reset], a second call adds its
    bytes to the sum when at most one day has passed since [last_reset]
    (exactly one day included), and otherwise sets the counter to its own
    bytes and [last_reset] to the time of the call; owner and expiry are
    kept. *)
Theorem usage_accumulates_then_resets w1 w2 key b1 b2 st r :
  api_keys st !! key = Some r ->
  now w1 - last_reset r <= timedelta_days 1 ->
  let st1 := snd (update_usage_metrics w1 key b1 st) in
  let st2 := snd (update_usage_metrics w2 key b2 st1) in
  (now w2 - last_reset r <= timedelta_days 1 ->
   api_keys st2 !! key
   = Some (mkKeyRecord (user_id r) (daily_usage r + b1 + b2) (last_reset r) (expires_at r)))
  /\ (now w2 - last_reset r > timedelta_days 1 ->
      api_keys st2 !! key = Some (mkKeyRecord (user_id r) b2 (now w2) (expires_at r))).
Proof.
  intros Hr Hin st1 st2. subst st1 st2.
  rewrite (update_usage_metrics_cached_run w1 key b1 st r Hr). cbn [snd].
  rewrite (update_usage_metrics_cached_run w2 key b2 _ _ (metered_lookup w1 key b1 r st)).
  cbn [snd]. rewrite metered_lookup.
  assert (H1 : reset_if_new_day w1 r = r).
  { unfold reset_if_new_day.
    destruct (Z.gtb_spec (now w1 - last_reset r) (timedelta_days 1)); [lia | reflexivity]. }
  rewrite H1. unfold reset_if_new_day, add_usage. cbn [last_reset user_id daily_usage expires_at].
  split; intros Hw2;
    destruct (Z.gtb_spec (now w2 - last_reset r) (timedelta_days 1)); try lia;
    cbn [last_reset user_id daily_usage expires_at]; repeat f_equal; lia.
Qed.

Lemma usage_accumulates_then_resets_witness :
  let st := sample_state 100 in
  let day := timedelta_days 1 in
  usage_of "k1"
    (snd (update_usage_metrics (sample_world (sample_t0 + day)) "k1" 7
       (snd (update_usage_metrics (sample_world (sample_t0 + 5)) "k1" 20 st))))
  = Some 127
  /\ api_keys
       (snd (update_usage_metrics (sample_world (sample_t0 + day + 1)) "k1" 7
          (snd (update_usage_metrics (sample_world (sample_t0 + 5)) "k1" 20 st)))) !! "k1"
     = Some (sample_record 7 (sample_t0 + day + 1) (sample_t0 + timedelta_days 30)).
Proof.
  intros st day.
  destruct (usage_accumulates_then_resets (sample_world (sample_t0 + 5))
              (sample_world (sample_t0 + day)) "k1" 20 7 st
              (sample_record 100 sample_t0 (sample_t0 + timedelta_days 30)) eq_refl)
    as [Hsum _].
  { vm_compute. discriminate. }
  destruct (usage_accumulates_then_resets (sample_world (sample_t0 + 5))
              (sample_world (sample_t0 + day + 1)) "k1" 20 7 st
              (sample_record 100 sample_t0 (sample_t0 + timedelta_days 30)) eq_refl)
    as [_ Hreset].
  { vm_compute. discriminate. }
  split.
  - unfold usage_of. rewrite Hsum; [reflexivity|]. vm_compute. discriminate.
  - apply Hreset. vm_compute. reflexivity.
Defined.

(** X6: the store follows the cache only when the write goes through.  The
    call returns in every case.  When the store accepts the update, the
    key's document carries the counter and reset time of the cached record
    and keeps its owner and expiry; when the write fails, or the store has
    no document for the key, the store is left as it was while the cache
    has moved on. *)
Theorem usage_write_through_or_drift w key bytes st r :
  api_keys st !! key = Some r ->
  let st' := snd (update_usage_metrics w key bytes st) in
  let r' := add_usage bytes (reset_if_new_day w r) in
  fst (update_usage_metrics w key bytes st) = Ok tt
  /\ api_keys st' !! key = Some r'
  /\ (forall d, store_update_ok w = true -> db st !! key = Some d ->
        db st' !! key
        = Some (mkStoreDoc (s_user_id d) (Some (daily_usage r')) (Some (last_reset r'))
                  (s_expires_at d)))
  /\ (store_update_ok w = false -> db st' = db st)
  /\ (db st !! key = None -> db st' = db st).
Proof.
  intros Hr st' r'. subst st' r'.
  rewrite (update_usage_metrics_cached_run w key bytes st r Hr). cbn [fst snd].
  split; [reflexivity|]. split; [apply metered_lookup|].
  unfold metered. split; [|split].
  - intros d Hok Hd. rewrite Hok. cbn [db set_db set_api_keys].
    rewrite lookup_alter_eq, Hd. reflexivity.
  - intros Hok. rewrite Hok. reflexivity.
  - intros Hd. destruct (store_update_ok w); [|reflexivity].
    cbn [db set_db set_api_keys]. apply map_eq. intros k.
    destruct (decide (key = k)) as [<-|Hne].
    + rewrite lookup_alter_eq, Hd. reflexivity.
    + apply lookup_alter_ne. exact Hne.
Qed.

Lemma usage_write_through_or_drift_witness :
  db (snd (update_usage_metrics (sample_world (sample_t0 + 5)) "k1" 20
             (sample_state_stored 100))) !! "k1"
  = Some (sample_doc 120)
  /\ db (snd (update_usage_metrics (sample_world_store_down (sample_t0 + 5)) "k1" 20
                (sample_state_stored 100)))
     = db (sample_state_stored 100)
  /\ usage_of "k1" (snd (update_usage_metrics (sample_world_store_down (sample_t0 + 5)) "k1" 20
                           (sample_state_stored 100)))
     = Some 120.
Proof.
  destruct (usage_write_through_or_drift (sample_world (sample_t0 + 5)) "k1" 20
              (sample_state_stored 100)
              (sample_record 100 sample_t0 (sample_t0 + timedelta_days 30)) eq_refl)
    as (_ & _ & Hthrough & _).
  destruct (usage_write_through_or_drift (sample_world_store_down (sample_t0 + 5)) "k1" 20
              (sample_state_stored 100)
              (sample_record 100 sample_t0 (sample_t0 + timedelta_days 30)) eq_refl)
    as (_ & Hcache & _ & Hdrift & _).
  split; [|split].
  - rewrite (Hthrough (sample_doc 100) eq_refl eq_refl). vm_compute. reflexivity.
  - apply Hdrift. reflexivity.
  - unfold usage_of. rewrite Hcache. vm_compute. reflexivity.
Defined.

(** X7: [update_usage_metrics] concerns one key only: in every case,
    failures included, the pointer, the index and the call log are as
    before, and so are the cache records and store documents of all other
    keys; when it raises (store unreadable, or a store document whose
    timestamps do not parse, for a key not yet cached) nothing at all has
    changed. *)
Theorem update_usage_metrics_frame w key bytes st :
  let st' := snd (update_usage_metrics w key bytes st) in
  CURRENT_NAMESPACE st' = CURRENT_NAMESPACE st
  /\ pinecone st' = pinecone st
  /\ calls st' = calls st
  /\ (forall k, k <> key ->
        api_keys st' !! k = api_keys st !! k /\ db st' !! k = db st !! k)
  /\ (forall e, fst (update_usage_metrics w key bytes st) = Raise e -> st' = st).
Proof.
  cbv zeta.
  assert (Hsame : CURRENT_NAMESPACE st = CURRENT_NAMESPACE st
                  /\ pinecone st = pinecone st /\ calls st = calls st
                  /\ (forall k, k <> key ->
                        api_keys st !! k = api_keys st !! k /\ db st !! k = db st !! k))
    by (repeat split; reflexivity).
  assert (Hmetered : forall r,
    let st' := snd (@Ok unit tt, metered w key bytes r st) in
    CURRENT_NAMESPACE st' = CURRENT_NAMESPACE st
    /\ pinecone st' = pinecone st /\ calls st' = calls st
    /\ (forall k, k <> key ->
          api_keys st' !! k = api_keys st !! k /\ db st' !! k = db st !! k)
    /\ (forall e, fst (@Ok unit tt, metered w key bytes r st) = Raise e -> st' = st)).
  { intros r. cbn [fst snd]. destruct (metered_frame w key bytes r st) as (H1 & H2 & H3 & H4).
    repeat split; try assumption; try (apply H4; assumption). discriminate. }
  assert (Hraise : forall e0 : exception,
    let st' := snd (@Raise unit e0, st) in
    CURRENT_NAMESPACE st' = CURRENT_NAMESPACE st
    /\ pinecone st' = pinecone st /\ calls st' = calls st
    /\ (forall k, k <> key ->
          api_keys st' !! k = api_keys st !! k /\ db st' !! k = db st !! k)
    /\ (forall e, fst (@Raise unit e0, st) = Raise e -> st' = st)).
  { intros e0. cbn [fst snd]. repeat split; reflexivity. }
  destruct (api_keys st !! key) as [r|] eqn:Hr.
  - rewrite (update_usage_metrics_cached_run w key bytes st r Hr). apply Hmetered.
  - rewrite (update_usage_metrics_uncached_run w key bytes st Hr).
    destruct (store_get_fault w); [apply Hraise|].
    destruct (db st !! key) as [d|]; [|apply Hmetered].
    destruct (s_last_reset d); [|apply Hraise].
    destruct (s_expires_at d); [apply Hmetered | apply Hraise].
Qed.

(** X8: on a key that is not cached, [update_usage_metrics] loads the
    record from the store exactly as [validate_api_key] does: for a store
    document that is readable and not expired, metering right away and
    validating first then metering end in the same state, with the bytes
    added to the counter the store held. *)
Theorem metering_loads_like_validation w key bytes st d reset expires :
  api_keys st !! key = None ->
  store_get_fault w = None ->
  db st !! key = Some d ->
  s_last_reset d = Some reset ->
  s_expires_at d = Some expires ->
  now w <= expires ->
  update_usage_metrics w key bytes st
  = update_usage_metrics w key bytes (snd (validate_api_key w key st))
  /\ api_keys (snd (update_usage_metrics w key bytes st)) !! key
     = Some (add_usage bytes (reset_if_new_day w (record_of_doc d reset expires))).
Proof.
  intros Hr Hget Hd Hreset He Hnow.
  rewrite (update_usage_metrics_uncached_run w key bytes st Hr), Hget, Hd, Hreset, He.
  rewrite (validate_api_key_uncached w key st Hr), Hget, Hd, He, Hreset.
  destruct (Z.gtb_spec (now w) expires); [lia|]. cbn [snd]. split.
  - rewrite (update_usage_metrics_cached_run w key bytes _ (record_of_doc d reset expires))
      by (cbn [api_keys set_api_keys]; apply lookup_insert_eq).
    unfold metered, set_api_keys, set_db.
    cbn [api_keys db CURRENT_NAMESPACE pinecone calls].
    rewrite insert_insert_eq. reflexivity.
  - apply metered_lookup.
Qed.

Lemma metering_loads_like_validation_witness :
  let st := set_api_keys (fun _ => ∅) (sample_state_stored 100) in
  usage_of "k1" (snd (update_usage_metrics (sample_world (sample_t0 + 5)) "k1" 20 st))
  = Some 120
  /\ update_usage_metrics (sample_world (sample_t0 + 5)) "k1" 20 st
     = update_usage_metrics (sample_world (sample_t0 + 5)) "k1" 20
         (snd (validate_api_key (sample_world (sample_t0 + 5)) "k1" st)).
Proof.
  intros st.
  destruct (metering_loads_like_validation (sample_world (sample_t0 + 5)) "k1" 20 st
              (sample_doc 100) sample_t0 (sample_t0 + timedelta_days 30))
    as [Hsame Hlook]; try reflexivity.
  - vm_compute. discriminate.
  - split; [|exact Hsame]. unfold usage_of. rewrite Hlook. vm_compute. reflexivity.
Defined.

(** ** [upload_pdf], case by case *)

(** The state in which the document is processed: usage recorded, pointer
    set. *)
Lemma upload_pdf_admitted_run w filename content key st r :
  payload_ok w content = true ->
  api_keys st !! key = Some r ->
  daily_usage r <= DAILY_QUOTA ->
  let ns := namespace_of r filename in
  let s0 := set_namespace (Some ns)
              (metered w key (Z.of_nat (String.length content)) r st) in
  upload_pdf w filename content key st
  = match load_pdf w content with
    | inl msg => (Raise (HTTPException 500 msg), s0)
    | inr docs =>
        match split_documents w docs with
        | inl msg => (Raise (HTTPException 500 msg), s0)
        | inr chunks =>
            let chunks := add_metadata filename chunks in
            let s2 := log_call (IndexAdd ns chunks) (after_clear w ns s0) in
            match add_documents_fault w with
            | Some msg => (Raise (HTTPException 500 msg), s2)
            | None =>
                (Ok (mkUploadResponse
                       ("PDF processed successfully. Created "
                        +:+ str_of_nat (length chunks)
                        +:+ " chunks in namespace " +:+ ns +:+ ".") ns),
                 set_pinecone (index_add ns chunks) s2)
            end
        end
    end.
Proof.
  intros Hpayload Hr Hquota ns s0.
  destruct (upload_pdf_admitted w filename content key st r Hpayload Hr Hquota)
    as (st1 & Hmeter & ->).
  rewrite (update_usage_metrics_cached_run w key _ st r Hr) in Hmeter.
  injection Hmeter as <-. fold ns. fold s0.
  unfold try_except. rewrite index_document_run.
  destruct (load_pdf w content) as [msg|docs]; [reflexivity|].
  destruct (split_documents w docs) as [msg|chunks]; [reflexivity|].
  cbv zeta. destruct (add_documents_fault w); reflexivity.
Qed.

(** Either the upload is turned away before anything is written, or it is
    admitted on a cached record within quota. *)
Lemma upload_pdf_cases w filename content key st :
  (exists detail,
     upload_pdf w filename content key st = (Raise (HTTPException 500 detail), st))
  \/ (exists r, payload_ok w content = true /\ api_keys st !! key = Some r
                /\ daily_usage r <= DAILY_QUOTA).
Proof.
  destruct (payload_ok w content) eqn:Hpayload.
  2: { left. destruct (upload_pdf_invalid_payload w filename content key st Hpayload)
         as (detail & H & _). eauto. }
  destruct (api_keys st !! key) as [r|] eqn:Hr.
  2: { left. rewrite (upload_pdf_unknown_key w filename content key st Hpayload Hr). eauto. }
  destruct (Z_gt_le_dec (daily_usage r) DAILY_QUOTA) as [Hover|Hquota].
  - left. rewrite (upload_pdf_over_quota w filename content key st r Hpayload Hr Hover). eauto.
  - right. eauto.
Qed.

Lemma after_clear_frame w ns st :
  api_keys (after_clear w ns st) = api_keys st
  /\ db (after_clear w ns st) = db st
  /\ CURRENT_NAMESPACE (after_clear w ns st) = CURRENT_NAMESPACE st.
Proof.
  unfold after_clear. destruct (should_clear w ns st); [|auto].
  destruct (index_delete_ok w); auto.
Qed.

(** [ask_question], case by case. *)
Lemma ask_question_run w question key st :
  ask_question w question key st
  = match CURRENT_NAMESPACE st with
    | None => (Raise (HTTPException 500 ("400: " +:+ NO_DOCUMENT_DETAIL)), st)
    | Some ns =>
        if String.eqb ns EmptyString
        then (Raise (HTTPException 500 ("400: " +:+ NO_DOCUMENT_DETAIL)), st)
        else
          let s1 := log_call (SimilaritySearch ns question) st in
          match similarity_search w (default [] (pinecone st !! ns)) question with
          | inl msg => (Raise (HTTPException 500 msg), s1)
          | inr [] => (Ok (mkQuestionResponse FALLBACK_ANSWER (Some FALLBACK_CONTEXT)), s1)
          | inr (doc :: rest) =>
              let context := build_context (doc :: rest) in
              let messages := [SystemMessage system_message;
                               HumanMessage (human_message context question)] in
              let s2 := log_call (LlmInvoke messages) s1 in
              match llm_invoke w messages with
              | inl msg => (Raise (HTTPException 500 msg), s2)
              | inr text => (Ok (mkQuestionResponse text (Some context)), s2)
              end
          end
    end.
Proof.
  unfold ask_question. run.
  destruct (CURRENT_NAMESPACE st) as [ns|]; [|reflexivity].
  destruct (String.eqb ns EmptyString); [reflexivity|].
  unfold search, invoke_llm. run. cbn [pinecone log_call].
  destruct (similarity_search w (default [] (pinecone st !! ns)) question)
    as [msg|[|doc rest]]; try reflexivity.
  cbv zeta. destruct (llm_invoke w _); reflexivity.
Qed.

(** ** Failure statuses of the endpoints *)





(** ** The pointer and the index across uploads and questions *)

(** The answer to a question depends on the pointer and on the index only. *)
Lemma ask_question_fst_ext w question key key' st1 st2 :
  CURRENT_NAMESPACE st1 = CURRENT_NAMESPACE st2 ->
  pinecone st1 = pinecone st2 ->
  fst (ask_question w question key st1) = fst (ask_question w question key' st2).
Proof.
  intros Hns Hidx. rewrite !ask_question_run, Hns, Hidx.
  destruct (CURRENT_NAMESPACE st2) as [ns|]; [|reflexivity].
  destruct (String.eqb ns EmptyString); [reflexivity|]. cbv zeta.
  destruct (similarity_search w (default [] (pinecone st2 !! ns)) question)
    as [msg|[|doc rest]]; try reflexivity.
  destruct (llm_invoke w _); reflexivity.
Qed.

(** With a pointer set to a non-empty name, a question always starts with a
    similarity search under that name. *)
Lemma ask_question_searches w question key st ns :
  CURRENT_NAMESPACE st = Some ns ->
  ns <> EmptyString ->
  In (SimilaritySearch ns question) (calls (snd (ask_question w question key st))).
Proof.
  intros Hns Hne. rewrite ask_question_run, Hns.
  destruct (String.eqb_spec ns EmptyString); [contradiction|]. cbv zeta.
  destruct (similarity_search w (default [] (pinecone st !! ns)) question)
    as [msg|[|doc rest]]; try (cbn [snd calls log_call]; left; reflexivity).
  destruct (llm_invoke w _); cbn [snd calls log_call]; right; left; reflexivity.
Qed.

(** X10: the pointer is moved before the document is read.  When an
    admitted upload fails in the loader or in the splitter, the index is as
    before and no index call was made, but the pointer already names the
    namespace of the failed upload: the next question runs a similarity
    search under that name and is answered from whatever the index holds
    there, exactly as if the pointer alone had been set. *)
Theorem failed_upload_moves_pointer w filename content key st r :
  payload_ok w content = true ->
  api_keys st !! key = Some r ->
  daily_usage r <= DAILY_QUOTA ->
  match load_pdf w content with
  | inl _ => True
  | inr docs => match split_documents w docs with inl _ => True | inr _ => False end
  end ->
  let ns := namespace_of r filename in
  let st' := snd (upload_pdf w filename content key st) in
  (exists detail, fst (upload_pdf w filename content key st) = Raise (HTTPException 500 detail))
  /\ CURRENT_NAMESPACE st' = Some ns
  /\ pinecone st' = pinecone st
  /\ calls st' = calls st
  /\ forall w' question key',
       fst (ask_question w' question key' st')
       = fst (ask_question w' question key' (set_namespace (Some ns) st))
       /\ In (SimilaritySearch ns question)
            (calls (snd (ask_question w' question key' st'))).
Proof.
  intros Hpayload Hr Hquota Hfails ns st'. subst st'.
  rewrite (upload_pdf_admitted_run w filename content key st r Hpayload Hr Hquota).
  cbv zeta. fold ns.
  destruct (metered_frame w key (Z.of_nat (String.length content)) r st)
    as (_ & Hidx & Hcalls & _).
  assert (Hask : forall w' question key',
    fst (ask_question w' question key'
           (set_namespace (Some ns) (metered w key (Z.of_nat (String.length content)) r st)))
    = fst (ask_question w' question key' (set_namespace (Some ns) st))
    /\ In (SimilaritySearch ns question)
         (calls (snd (ask_question w' question key'
            (set_namespace (Some ns)
               (metered w key (Z.of_nat (String.length content)) r st)))))).
  { intros w' question key'. split.
    - apply ask_question_fst_ext; [reflexivity | exact Hidx].
    - apply ask_question_searches; [reflexivity | apply namespace_of_nonempty]. }
  destruct (load_pdf w content) as [msg|docs].
  - cbn [fst snd CURRENT_NAMESPACE pinecone calls set_namespace].
    repeat split; eauto; apply Hask.
  - destruct (split_documents w docs) as [msg|chunks]; [|contradiction].
    cbn [fst snd CURRENT_NAMESPACE pinecone calls set_namespace].
    repeat split; eauto; apply Hask.
Qed.

Lemma failed_upload_moves_pointer_witness :
  let w := sample_world_loader_down sample_t0 in
  let st' := snd (upload_pdf w "b.pdf" sample_pdf "k1" (sample_state 0)) in
  CURRENT_NAMESPACE (sample_state 0) = Some "u1_a"
  /\ CURRENT_NAMESPACE st' = Some "u1_b"
  /\ pinecone st' = pinecone (sample_state 0)
  /\ In (SimilaritySearch "u1_b" "What color is the sky?")
       (calls (snd (ask_question (sample_world sample_t0) "What color is the sky?" "k1" st'))).
Proof.
  intros w st'.
  destruct (failed_upload_moves_pointer w "b.pdf" sample_pdf "k1" (sample_state 0)
              (sample_record 0 sample_t0 (sample_t0 + timedelta_days 30)))
    as (_ & Hns & Hidx & _ & Hask).
  - reflexivity.
  - reflexivity.
  - vm_compute. discriminate.
  - exact I.
  - split; [reflexivity|]. split; [exact Hns|]. split; [exact Hidx|].
    apply (Hask (sample_world sample_t0) "What color is the sky?" "k1").
Defined.

Lemma should_clear_ext w ns st1 st2 :
  pinecone st1 = pinecone st2 -> should_clear w ns st1 = should_clear w ns st2.
Proof. unfold should_clear. intros ->. reflexivity. Qed.

Lemma after_clear_pinecone w ns st :
  pinecone (after_clear w ns st)
  = if should_clear w ns st && index_delete_ok w
    then delete ns (pinecone st) else pinecone st.
Proof.
  unfold after_clear. destruct (should_clear w ns st); [|reflexivity].
  destruct (index_delete_ok w); reflexivity.
Qed.

Lemma after_clear_calls w ns st :
  calls (after_clear w ns st)
  = app (if should_clear w ns st then [IndexDelete ns] else []) (calls st).
Proof.
  unfold after_clear. destruct (should_clear w ns st); [|reflexivity].
  destruct (index_delete_ok w); reflexivity.
Qed.

Lemma add_metadata_from_length i filename chunks :
  length (add_metadata_from i filename chunks) = length chunks.
Proof.
  revert i. induction chunks as [|c chunks IH]; intros i; simpl; [reflexivity|].
  rewrite IH. reflexivity.
Qed.

Lemma lookup_index_add_eq ns chunks (idx : gmap string (list Document)) :
  chunks <> [] ->
  index_add ns chunks idx !! ns = Some (app (default [] (idx !! ns)) chunks).
Proof.
  intros Hne. unfold index_add. destruct chunks; [contradiction|].
  apply lookup_insert_eq.
Qed.

(** A successful upload, read backwards: it was admitted, the loader and
    the splitter answered, and the final state is the one computed by
    [upload_pdf_admitted_run]. *)
Lemma upload_pdf_success_inv w filename content key st resp st' :
  upload_pdf w filename content key st = (Ok resp, st') ->
  exists r docs chunks,
    payload_ok w content = true /\ api_keys st !! key = Some r
    /\ daily_usage r <= DAILY_QUOTA
    /\ load_pdf w content = inr docs /\ split_documents w docs = inr chunks
    /\ namespace resp = namespace_of r filename
    /\ st' = set_pinecone (index_add (namespace resp) (add_metadata filename chunks))
               (log_call (IndexAdd (namespace resp) (add_metadata filename chunks))
                  (after_clear w (namespace resp)
                     (set_namespace (Some (namespace resp))
                        (metered w key (Z.of_nat (String.length content)) r st)))).
Proof.
  intros Hup.
  destruct (upload_pdf_cases w filename content key st)
    as [(detail & Hraise)|(r & Hpayload & Hr & Hquota)]; [congruence|].
  rewrite (upload_pdf_admitted_run w filename content key st r Hpayload Hr Hquota) in Hup.
  cbv zeta in Hup.
  destruct (load_pdf w content) as [msg|docs] eqn:Hload; [discriminate|].
  destruct (split_documents w docs) as [msg|chunks] eqn:Hsplit; [discriminate|].
  destruct (add_documents_fault w); [discriminate|].
  injection Hup as <- <-. cbn [namespace].
  exists r, docs, chunks. repeat split; assumption || reflexivity.
Qed.

(** The content of the namespace after a successful upload whose clear
    went through. *)
Lemma index_after_successful_upload_aux w filename content key st resp st' docs chunks :
  upload_pdf w filename content key st = (Ok resp, st') ->
  load_pdf w content = inr docs ->
  split_documents w docs = inr chunks ->
  chunks <> [] ->
  describe_index_stats_ok w = true ->
  index_delete_ok w = true ->
  pinecone st' !! namespace resp = Some (add_metadata filename chunks).
Proof.
  intros Hup Hload Hsplit Hne Hstats Hdel.
  destruct (upload_pdf_success_inv w filename content key st resp st' Hup)
    as (r & docs' & chunks' & _ & _ & _ & Hload' & Hsplit' & _ & ->).
  rewrite Hload in Hload'. injection Hload' as <-.
  rewrite Hsplit in Hsplit'. injection Hsplit' as <-.
  set (ns := namespace resp). set (new := add_metadata filename chunks).
  assert (Hnew : new <> []).
  { intros Hnil. apply (f_equal (@length Document)) in Hnil.
    unfold new, add_metadata in Hnil. rewrite add_metadata_from_length in Hnil.
    destruct chunks; [contradiction | discriminate]. }
  cbn [pinecone set_pinecone log_call].
  rewrite (lookup_index_add_eq ns new _ Hnew), after_clear_pinecone.
  unfold should_clear. rewrite Hstats, Hdel. cbn [andb]. rewrite andb_true_r.
  cbn [pinecone set_namespace].
  destruct (metered_frame w key (Z.of_nat (String.length content)) r st)
    as (_ & Hidx & _).
  rewrite Hidx.
  destruct (bool_decide_reflect (is_Some (pinecone st !! ns))) as [Hsome|Hnone].
  - rewrite lookup_delete_eq. reflexivity.
  - destruct (pinecone st !! ns) eqn:Hl; [exfalso; apply Hnone; eauto|].
    reflexivity.
Qed.

(** X11: what a successful upload leaves under its namespace.  The delete
    call is made exactly when the index statistics can be read and list
    the namespace, and the add call follows.  When the statistics can be
    read and the delete call goes through, the namespace holds the chunks
    of this upload and nothing else; when the statistics cannot be read or
    the delete call fails, the upload succeeds all the same and the new
    chunks are appended after the vectors already stored there. *)
Theorem index_after_successful_upload w filename content key st resp st' docs chunks :
  upload_pdf w filename content key st = (Ok resp, st') ->
  load_pdf w content = inr docs ->
  split_documents w docs = inr chunks ->
  chunks <> [] ->
  let ns := namespace resp in
  let new := add_metadata filename chunks in
  calls st'
  = IndexAdd ns new :: app (if should_clear w ns st then [IndexDelete ns] else []) (calls st)
  /\ (describe_index_stats_ok w = true -> index_delete_ok w = true ->
      pinecone st' !! ns = Some new)
  /\ (describe_index_stats_ok w = false \/ index_delete_ok w = false ->
      pinecone st' !! ns = Some (app (default [] (pinecone st !! ns)) new)).
Proof.
  intros Hup Hload Hsplit Hne ns new.
  destruct (upload_pdf_success_inv w filename content key st resp st' Hup)
    as (r & docs' & chunks' & _ & _ & _ & Hload' & Hsplit' & _ & ->).
  rewrite Hload in Hload'. injection Hload' as <-.
  rewrite Hsplit in Hsplit'. injection Hsplit' as <-.
  fold ns. fold new.
  set (s0 := set_namespace (Some ns) (metered w key (Z.of_nat (String.length content)) r st)).
  assert (Hidx0 : pinecone s0 = pinecone st).
  { destruct (metered_frame w key (Z.of_nat (String.length content)) r st)
      as (_ & Hidx & _). exact Hidx. }
  assert (Hcalls0 : calls s0 = calls st).
  { destruct (metered_frame w key (Z.of_nat (String.length content)) r st)
      as (_ & _ & Hcalls & _). exact Hcalls. }
  assert (Hnew : new <> []).
  { intros Hnil. apply (f_equal (@length Document)) in Hnil.
    unfold new, add_metadata in Hnil. rewrite add_metadata_from_length in Hnil.
    destruct chunks; [contradiction | discriminate]. }
  cbn [calls pinecone set_pinecone log_call].
  rewrite after_clear_calls, after_clear_pinecone, Hcalls0, Hidx0.
  rewrite (should_clear_ext w ns s0 st Hidx0).
  split; [reflexivity|].
  rewrite (lookup_index_add_eq ns new _ Hnew). unfold should_clear. split.
  - intros Hstats Hdel. rewrite Hstats, Hdel. cbn [andb]. rewrite andb_true_r.
    destruct (bool_decide_reflect (is_Some (pinecone st !! ns))) as [Hsome|Hnone].
    + rewrite lookup_delete_eq. reflexivity.
    + destruct (pinecone st !! ns) eqn:Hl; [exfalso; apply Hnone; eauto|].
      reflexivity.
  - intros [Hstats|Hdel].
    + rewrite Hstats. reflexivity.
    + rewrite Hdel, andb_false_r. reflexivity.
Qed.

Lemma index_after_successful_upload_witness :
  let st := sample_state 0 in
  let w := sample_world sample_t0 in
  let w_stuck :=
    mkWorld sample_t0 None true (fun _ => Some 2%nat) (fun _ => inr sample_docs)
      (fun docs => inr docs) true false None (fun docs _ => inr (firstn 5 docs))
      (fun _ => inr "Blue.") in
  pinecone (snd (upload_pdf w "a.pdf" sample_pdf "k1" st)) !! "u1_a"
  = Some (add_metadata "a.pdf" sample_docs)
  /\ pinecone (snd (upload_pdf w_stuck "a.pdf" sample_pdf "k1" st)) !! "u1_a"
     = Some (app sample_docs (add_metadata "a.pdf" sample_docs)).
Proof.
  intros st w w_stuck.
  destruct (index_after_successful_upload w "a.pdf" sample_pdf "k1" st
              (mkUploadResponse
                 "PDF processed successfully. Created 1 chunks in namespace u1_a." "u1_a")
              (snd (upload_pdf w "a.pdf" sample_pdf "k1" st)) sample_docs sample_docs)
    as (_ & Hreplace & _); try reflexivity; try discriminate.
  destruct (index_after_successful_upload w_stuck "a.pdf" sample_pdf "k1" st
              (mkUploadResponse
                 "PDF processed successfully. Created 1 chunks in namespace u1_a." "u1_a")
              (snd (upload_pdf w_stuck "a.pdf" sample_pdf "k1" st)) sample_docs sample_docs)
    as (_ & _ & Happend); try reflexivity; try discriminate.
  split.
  - apply Hreplace; reflexivity.
  - apply Happend. right. reflexivity.
Defined.

Lemma metered_api_keys w key bytes r st :
  api_keys (metered w key bytes r st)
  = <[key := add_usage bytes (reset_if_new_day w r)]> (api_keys st).
Proof. unfold metered. destruct (store_update_ok w); reflexivity. Qed.

(** The state an admitted upload ends in, whatever its outcome: cache and
    store as after the metering, pointer on the new namespace, and the
    index changed under that namespace at most. *)
Lemma upload_pdf_admitted_state w filename content key st r :
  payload_ok w content = true ->
  api_keys st !! key = Some r ->
  daily_usage r <= DAILY_QUOTA ->
  let m := metered w key (Z.of_nat (String.length content)) r st in
  let st' := snd (upload_pdf w filename content key st) in
  api_keys st' = api_keys m /\ db st' = db m
  /\ CURRENT_NAMESPACE st' = Some (namespace_of r filename)
  /\ forall ns, ns <> namespace_of r filename -> pinecone st' !! ns = pinecone st !! ns.
Proof.
  intros Hpayload Hr Hquota m st'. subst st'.
  rewrite (upload_pdf_admitted_run w filename content key st r Hpayload Hr Hquota).
  cbv zeta. fold m. set (ns := namespace_of r filename).
  assert (Hidx : pinecone m = pinecone st)
    by (destruct (metered_frame w key (Z.of_nat (String.length content)) r st)
          as (_ & H & _); exact H).
  destruct (after_clear_frame w ns (set_namespace (Some ns) m)) as (Hk & Hd & Hn).
  assert (Hcleared : forall ns', ns' <> ns ->
            pinecone (after_clear w ns (set_namespace (Some ns) m)) !! ns'
            = pinecone st !! ns').
  { intros ns' Hne. rewrite after_clear_pinecone. cbn [pinecone set_namespace].
    rewrite Hidx. destruct (_ && _); [|reflexivity].
    apply lookup_delete_ne. congruence. }
  destruct (load_pdf w content) as [msg|docs].
  { cbn [snd api_keys db CURRENT_NAMESPACE pinecone set_namespace].
    repeat split. intros ns' _. rewrite Hidx. reflexivity. }
  destruct (split_documents w docs) as [msg|chunks].
  { cbn [snd api_keys db CURRENT_NAMESPACE pinecone set_namespace].
    repeat split. intros ns' _. rewrite Hidx. reflexivity. }
  destruct (add_documents_fault w);
    cbn [snd api_keys db CURRENT_NAMESPACE pinecone set_pinecone log_call];
    rewrite Hk, Hd, Hn; repeat split; try reflexivity.
  - exact Hcleared.
  - intros ns' Hne. rewrite lookup_index_add_ne by exact Hne. apply Hcleared. exact Hne.
Qed.

(** X12: an upload concerns the presented key and its own namespace only.
    In every case the cache records and store documents of the other keys
    are as before, no cache entry is added or removed, and the index can
    differ only under the namespace the pointer names afterwards; the
    properties that every cached record has non-negative usage and that
    every cached record has an expiry are kept. *)
Theorem upload_pdf_frame w filename content key st :
  let st' := snd (upload_pdf w filename content key st) in
  (forall k, k <> key ->
     api_keys st' !! k = api_keys st !! k /\ db st' !! k = db st !! k)
  /\ (forall k, is_Some (api_keys st' !! k) <-> is_Some (api_keys st !! k))
  /\ (forall ns, pinecone st' !! ns <> pinecone st !! ns -> CURRENT_NAMESPACE st' = Some ns)
  /\ (usage_nonneg st -> usage_nonneg st')
  /\ (cache_has_expiry st -> cache_has_expiry st').
Proof.
  cbv zeta.
  destruct (upload_pdf_cases w filename content key st)
    as [(detail & ->)|(r & Hpayload & Hr & Hquota)].
  { cbn [snd]. repeat split; tauto. }
  destruct (upload_pdf_admitted_state w filename content key st r Hpayload Hr Hquota)
    as (Hkeys & Hdb & Hns & Hidx).
  destruct (metered_frame w key (Z.of_nat (String.length content)) r st)
    as (_ & _ & _ & Hother).
  set (st' := snd (upload_pdf w filename content key st)) in *.
  assert (Hlook : forall k, api_keys st' !! k
            = if decide (key = k)
              then Some (add_usage (Z.of_nat (String.length content)) (reset_if_new_day w r))
              else api_keys st !! k).
  { intros k. rewrite Hkeys, metered_api_keys. apply lookup_insert. }
  split; [|split; [|split; [|split]]].
  - intros k Hne. rewrite Hkeys, Hdb. apply Hother. exact Hne.
  - intros k. rewrite Hlook. destruct (decide (key = k)) as [<-|_]; [|tauto].
    rewrite Hr. split; eauto.
  - intros ns Hne. destruct (decide (ns = namespace_of r filename)) as [->|Hns'].
    + exact Hns.
    + exfalso. apply Hne, Hidx. exact Hns'.
  - intros Hnonneg k r0. rewrite Hlook. destruct (decide (key = k)) as [<-|_].
    + intros [= <-]. pose proof (Hnonneg key r Hr) as Hr0.
      unfold add_usage, reset_if_new_day.
      destruct (_ >? _); cbn [daily_usage]; lia.
    + apply Hnonneg.
  - intros Hexp k r0. rewrite Hlook. destruct (decide (key = k)) as [<-|_].
    + intros [= <-]. cbn [add_usage expires_at].
      rewrite reset_if_new_day_expires_at. exact (Hexp key r Hr).
    + apply Hexp.
Qed.

Lemma upload_pdf_frame_witness :
  let st' := snd (upload_pdf (sample_world sample_t0) "b.pdf" sample_pdf "k1" (sample_state 5)) in
  usage_nonneg st' /\ cache_has_expiry st'.
Proof.
  intros st'.
  destruct (upload_pdf_frame (sample_world sample_t0) "b.pdf" sample_pdf "k1" (sample_state 5))
    as (_ & _ & _ & Hnonneg & Hexpiry).
  split.
  - apply Hnonneg. intros k r. unfold sample_state. cbn [api_keys].
    intros H. apply lookup_singleton_Some in H as [_ <-]. cbn. lia.
  - apply Hexpiry. intros k r. unfold sample_state. cbn [api_keys].
    intros H. apply lookup_singleton_Some in H as [_ <-]. cbn. eauto.
Defined.

(** X13: upload, then ask.  After a successful upload whose clear went
    through, a question is answered from the chunks of that upload and from
    nothing else: the retriever is given exactly those chunks; an empty
    retrieval gives the canned answer, a retriever or LLM error gives a
    500 with its message, and otherwise the answer is the text of the LLM
    with the context built from the retrieved chunks. *)
Theorem ask_after_upload w filename content key st resp st' docs chunks :
  upload_pdf w filename content key st = (Ok resp, st') ->
  load_pdf w content = inr docs ->
  split_documents w docs = inr chunks ->
  chunks <> [] ->
  describe_index_stats_ok w = true ->
  index_delete_ok w = true ->
  forall w' question key',
    fst (ask_question w' question key' st')
    = match similarity_search w' (add_metadata filename chunks) question with
      | inl msg => Raise (HTTPException 500 msg)
      | inr [] => Ok (mkQuestionResponse FALLBACK_ANSWER (Some FALLBACK_CONTEXT))
      | inr results =>
          let context := build_context results in
          match llm_invoke w' [SystemMessage system_message;
                               HumanMessage (human_message context question)] with
          | inl msg => Raise (HTTPException 500 msg)
          | inr text => Ok (mkQuestionResponse text (Some context))
          end
      end.
Proof.
  intros Hup Hload Hsplit Hne Hstats Hdel w' question key'.
  destruct (upload_pdf_success_inv w filename content key st resp st' Hup)
    as (r & _ & _ & Hpayload & Hr & Hquota & _ & _ & Hns & _).
  destruct (upload_pdf_admitted_state w filename content key st r Hpayload Hr Hquota)
    as (_ & _ & Hptr & _).
  rewrite Hup in Hptr. cbn [snd] in Hptr.
  pose proof (index_after_successful_upload_aux w filename content key st resp st' docs chunks
                Hup Hload Hsplit Hne Hstats Hdel) as Hidx.
  rewrite ask_question_run, Hptr, <- Hns.
  destruct (String.eqb_spec (namespace resp) EmptyString) as [Hempty|_].
  { exfalso. rewrite Hns in Hempty. exact (namespace_of_nonempty r filename Hempty). }
  cbv zeta. rewrite Hidx. cbn [from_option id].
  destruct (similarity_search w' (add_metadata filename chunks) question)
    as [msg|[|doc rest]]; try reflexivity.
  destruct (llm_invoke w' _); reflexivity.
Qed.

Lemma ask_after_upload_witness :
  let w := sample_world sample_t0 in
  let st' := snd (upload_pdf w "a.pdf" sample_pdf "k1" (sample_state 0)) in
  fst (ask_question w "What color is the sky?" "k1" st')
  = Ok (mkQuestionResponse "Blue."
          (Some (build_context (add_metadata "a.pdf" sample_docs)))).
Proof.
  intros w st'.
  rewrite (ask_after_upload w "a.pdf" sample_pdf "k1" (sample_state 0)
             (mkUploadResponse
                "PDF processed successfully. Created 1 chunks in namespace u1_a." "u1_a")
             st' sample_docs sample_docs);
    try reflexivity.
  discriminate.
Defined.

(** ** [ask_question] *)

(** X14: a question only reads.  In every case the cache, the store, the
    pointer and the index are as before; the call log grows by the
    similarity search and at most one LLM invocation, or not at all when
    no document is active. *)
Theorem ask_question_read_only w question key st :
  let st' := snd (ask_question w question key st) in
  api_keys st' = api_keys st /\ db st' = db st
  /\ CURRENT_NAMESPACE st' = CURRENT_NAMESPACE st
  /\ pinecone st' = pinecone st
  /\ exists added,
       calls st' = app added (calls st)
       /\ (length added <= 2)%nat
       /\ (length (filter is_llm_call added) <= 1)%nat
       /\ (CURRENT_NAMESPACE st = None -> added = []).
Proof.
  cbv zeta. rewrite ask_question_run.
  destruct (CURRENT_NAMESPACE st) as [ns|] eqn:Hns.
  2: { cbn [snd]. do 4 (split; [congruence|]).
       exists []. repeat split; cbn; lia. }
  destruct (String.eqb ns EmptyString).
  { cbn [snd]. do 4 (split; [congruence|]).
    exists []. repeat split; try discriminate; try (cbn; lia); try (vm_compute; lia). }
  cbv zeta.
  destruct (similarity_search w (default [] (pinecone st !! ns)) question)
    as [msg|[|doc rest]].
  - cbn [snd api_keys db CURRENT_NAMESPACE pinecone calls log_call].
    do 4 (split; [congruence|]).
    exists [SimilaritySearch ns question].
    repeat split; try discriminate; try (cbn; lia); try (vm_compute; lia).
  - cbn [snd api_keys db CURRENT_NAMESPACE pinecone calls log_call].
    do 4 (split; [congruence|]).
    exists [SimilaritySearch ns question].
    repeat split; try discriminate; try (cbn; lia); try (vm_compute; lia).
  - destruct (llm_invoke w _);
      cbn [snd api_keys db CURRENT_NAMESPACE pinecone calls log_call];
      do 4 (split; [congruence|]);
      eexists [LlmInvoke _; SimilaritySearch ns question];
      repeat split; try discriminate; try (cbn; lia); try (vm_compute; lia).
Qed.

(** X15: with at least one chunk retrieved, the LLM is invoked once, after
    the search, with the system instruction and the user message built
    from the context and the question.  Its text is returned as the answer
    unchanged, together with that context; when it raises, the request
    fails with a 500 carrying its message, and no second attempt is
    made. *)
Theorem ask_with_results w question key st ns doc rest :
  CURRENT_NAMESPACE st = Some ns ->
  ns <> EmptyString ->
  similarity_search w (default [] (pinecone st !! ns)) question = inr (doc :: rest) ->
  let context := build_context (doc :: rest) in
  let messages := [SystemMessage system_message;
                   HumanMessage (human_message context question)] in
  calls (snd (ask_question w question key st))
  = LlmInvoke messages :: SimilaritySearch ns question :: calls st
  /\ fst (ask_question w question key st)
     = match llm_invoke w messages with
       | inr text => Ok (mkQuestionResponse text (Some context))
       | inl msg => Raise (HTTPException 500 msg)
       end.
Proof.
  intros Hns Hne Hsearch. cbv zeta. rewrite ask_question_run, Hns.
  destruct (String.eqb_spec ns EmptyString); [contradiction|]. cbv zeta.
  rewrite Hsearch. destruct (llm_invoke w _); split; reflexivity.
Qed.

Lemma ask_with_results_witness :
  let w := with_llm (sample_world sample_t0) (fun _ => inl "model overloaded") in
  fst (ask_question (sample_world sample_t0) "What color is the sky?" "k1" (sample_state 0))
  = Ok (mkQuestionResponse "Blue." (Some (build_context sample_docs)))
  /\ fst (ask_question w "What color is the sky?" "k1" (sample_state 0))
     = Raise (HTTPException 500 "model overloaded")
  /\ llm_call_count (snd (ask_question w "What color is the sky?" "k1" (sample_state 0)))
     = 1%nat.
Proof.
  intros w.
  destruct (ask_with_results (sample_world sample_t0) "What color is the sky?" "k1"
              (sample_state 0) "u1_a"
              (mkDocument "The sky is blue." (mkMetadata None None (Some "0"))) [])
    as [_ Hok]; try reflexivity; try discriminate.
  destruct (ask_with_results w "What color is the sky?" "k1"
              (sample_state 0) "u1_a"
              (mkDocument "The sky is blue." (mkMetadata None None (Some "0"))) [])
    as [Hcalls Hfail]; try reflexivity; try discriminate.
  split; [exact Hok|]. split; [exact Hfail|].
  unfold llm_call_count. rewrite Hcalls. reflexivity.
Defined.

Lemma ask_question_read_only_witness :
  let st := set_namespace None (sample_state 0) in
  snd (ask_question (sample_world sample_t0) "What color is the sky?" "k1" st) = st.
Proof.
  intros st.
  destruct (ask_question_read_only (sample_world sample_t0) "What color is the sky?" "k1" st)
    as (Hkeys & Hdb & Hns & Hidx & added & Hcalls & _ & _ & Hnone).
  rewrite (Hnone eq_refl) in Hcalls.
  destruct (snd (ask_question (sample_world sample_t0) "What color is the sky?" "k1" st)).
  cbn in Hkeys, Hdb, Hns, Hidx, Hcalls. subst. reflexivity.
Defined.

(** ** Metadata and context *)

Lemma add_metadata_from_lookup k filename (chunks : list Document) i chunk :
  chunks !! i = Some chunk ->
  add_metadata_from k filename chunks !! i
  = Some (mkDocument (page_content chunk)
            (mkMetadata (Some (k + i)%nat) (Some filename)
               (Some (default "unknown" (md_page (metadata chunk)))))).
Proof.
  revert k i. induction chunks as [|c chunks IH]; intros k [|i] H; try discriminate.
  - injection H as <-. cbn. rewrite Nat.add_0_r. reflexivity.
  - etransitivity; [exact (IH (S k) i H)|].
    replace (S k + i)%nat with (k + S i)%nat by lia. reflexivity.
Qed.

(** X16: the metadata attached before indexing.  The list keeps its length
    and order; the chunk at position [i] keeps its text and gets chunk id
    [i] and the uploaded file name; its page is kept when the splitter gave
    one and is ["unknown"] otherwise, so that no indexed chunk lacks a file
    name or a page. *)
Theorem add_metadata_contract filename (chunks : list Document) :
  length (add_metadata filename chunks) = length chunks
  /\ forall i chunk,
       chunks !! i = Some chunk ->
       add_metadata filename chunks !! i
       = Some (mkDocument (page_content chunk)
                 (mkMetadata (Some i) (Some filename)
                    (Some (default "unknown" (md_page (metadata chunk)))))).
Proof.
  split; [apply add_metadata_from_length|].
  intros i chunk H. apply (add_metadata_from_lookup 0 filename chunks i chunk H).
Qed.

Lemma add_metadata_contract_witness :
  add_metadata "a.pdf"
    [mkDocument "one" (mkMetadata None None (Some "3"));
     mkDocument "two" (mkMetadata None None None)] !! 1%nat
  = Some (mkDocument "two" (mkMetadata (Some 1%nat) (Some "a.pdf") (Some "unknown"))).
Proof.
  destruct (add_metadata_contract "a.pdf"
              [mkDocument "one" (mkMetadata None None (Some "3"));
               mkDocument "two" (mkMetadata None None None)]) as [_ H].
  apply (H 1%nat (mkDocument "two" (mkMetadata None None None))). reflexivity.
Defined.

Lemma context_parts_from_lookup k (results : list Document) i doc :
  results !! i = Some doc ->
  context_parts_from k results !! i
  = Some ("DOCUMENT SECTION " +:+ str_of_nat (S (k + i)) +:+ " [Document: "
          +:+ default "Unknown" (md_filename (metadata doc)) +:+ ", Page: "
          +:+ default "Unknown" (md_page (metadata doc)) +:+ "]:" +:+ nl
          +:+ page_content doc).
Proof.
  revert k i. induction results as [|d results IH]; intros k [|i] H; try discriminate.
  - injection H as <-. rewrite Nat.add_0_r. reflexivity.
  - etransitivity; [exact (IH (S k) i H)|].
    replace (S k + i)%nat with (k + S i)%nat by lia. reflexivity.
Qed.

Lemma context_parts_from_length k (results : list Document) :
  length (context_parts_from k results) = length results.
Proof.
  revert k. induction results as [|d results IH]; intros k; [reflexivity|].
  cbn [context_parts_from length]. rewrite IH. reflexivity.
Qed.

(** X17: the context block has one section per retrieved chunk, in the
    order of the retrieval; the section at position [i] is numbered
    [i + 1], names the chunk's file and page (["Unknown"] for a missing
    one) and is followed on the next line by the chunk's text. *)
Theorem context_sections (results : list Document) :
  build_context results
  = (nl +:+ nl) +:+ join (nl +:+ nl) (context_parts_from 0 results)
  /\ length (context_parts_from 0 results) = length results
  /\ forall i doc,
       results !! i = Some doc ->
       context_parts_from 0 results !! i
       = Some ("DOCUMENT SECTION " +:+ str_of_nat (S i) +:+ " [Document: "
               +:+ default "Unknown" (md_filename (metadata doc)) +:+ ", Page: "
               +:+ default "Unknown" (md_page (metadata doc)) +:+ "]:" +:+ nl
               +:+ page_content doc).
Proof.
  split; [reflexivity|]. split; [apply context_parts_from_length|].
  intros i doc H. apply (context_parts_from_lookup 0 results i doc H).
Qed.

Lemma context_sections_witness :
  context_parts_from 0
    [mkDocument "The sky is blue." (mkMetadata (Some 0%nat) (Some "a.pdf") (Some "1"));
     mkDocument "Grass is green." (mkMetadata (Some 1%nat) None None)] !! 1%nat
  = Some ("DOCUMENT SECTION 2 [Document: Unknown, Page: Unknown]:" +:+ nl
          +:+ "Grass is green.").
Proof.
  destruct (context_sections
              [mkDocument "The sky is blue." (mkMetadata (Some 0%nat) (Some "a.pdf") (Some "1"));
               mkDocument "Grass is green." (mkMetadata (Some 1%nat) None None)])
    as (_ & _ & H).
  rewrite (H 1%nat (mkDocument "Grass is green." (mkMetadata (Some 1%nat) None None)) eq_refl).
  reflexivity.
Defined.

(** ** [validate_pdf_content] *)

(** X18: [validate_pdf_content] accepts exactly the contents that start
    with the PDF header and parse to at most 50 pages.  It raises one of
    two 400s only: the wrong-type message for a content without the
    header (the parser is not consulted), and "Invalid PDF file" for every
    other rejection, a PDF of more than 50 pages included, whose own
    message is replaced by the enclosing [except]. *)
Theorem validate_pdf_content_outcomes w content st :
  (fst (validate_pdf_content w content st) = Ok tt
   <-> is_pdf content = true
       /\ exists pages, pdf_num_pages w content = Some pages /\ (pages <= 50)%nat)
  /\ (is_pdf content = false ->
      validate_pdf_content w content st
      = (Raise (HTTPException 400 "Invalid file type. Only PDF files are allowed."), st))
  /\ (is_pdf content = true ->
      fst (validate_pdf_content w content st) <> Ok tt ->
      validate_pdf_content w content st
      = (Raise (HTTPException 400 "Invalid PDF file"), st))
  /\ snd (validate_pdf_content w content st) = st.
Proof.
  unfold validate_pdf_content. destruct (is_pdf content); cbn [negb].
  - run. destruct (pdf_num_pages w content) as [pages|].
    + destruct (Nat.ltb_spec MAX_PAGES pages) as [Hgt|Hle]; unfold MAX_PAGES in *;
        cbn [fst snd]; repeat split; try discriminate; try reflexivity.
      * intros (_ & pages' & [= <-] & Hle). lia.
      * eauto.
      * intros _ Hne. contradiction.
    + cbn [fst snd]. repeat split; try discriminate; try reflexivity.
      intros (_ & pages' & Hp & _). discriminate.
  - cbn [fst snd]. repeat split; try discriminate; try reflexivity.
    intros (Hfalse & _). discriminate.
Qed.

Lemma validate_pdf_content_outcomes_witness :
  let w51 :=
    mkWorld sample_t0 None true (fun _ => Some 51%nat) (fun _ => inr sample_docs)
      (fun docs => inr docs) true true None (fun docs _ => inr (firstn 5 docs))
      (fun _ => inr "Blue.") in
  validate_pdf_content w51 sample_pdf (sample_state 0)
  = (Raise (HTTPException 400 "Invalid PDF file"), sample_state 0)
  /\ validate_pdf_content w51 "hello" (sample_state 0)
     = (Raise (HTTPException 400 "Invalid file type. Only PDF files are allowed."),
        sample_state 0).
Proof.
  intros w51.
  destruct (validate_pdf_content_outcomes w51 sample_pdf (sample_state 0))
    as (_ & _ & Hmasked & _).
  destruct (validate_pdf_content_outcomes w51 "hello" (sample_state 0))
    as (_ & Htype & _).
  split.
  - apply Hmasked; [reflexivity|]. vm_compute. discriminate.
  - apply Htype. reflexivity.
Defined.

(** ** [clear_index] *)

(** X19: the debug reset never raises.  When the delete call goes through,
    the pointer is unset and every later question fails on the missing
    document without any search; when the delete call raises, the error
    text is returned as a normal answer and nothing has changed, the
    pointer included. *)
Theorem clear_index_outcomes delete_all_vectors st :
  match delete_all_vectors (pinecone st) with
  | inr idx =>
      let st' := set_namespace None (set_pinecone (fun _ => idx) st) in
      clear_index delete_all_vectors st
      = (Ok (DebugMessage "Index cleared successfully"), st')
      /\ forall w question key,
           ask_question w question key st'
           = (Raise (HTTPException 500 ("400: " +:+ NO_DOCUMENT_DETAIL)), st')
  | inl msg =>
      clear_index delete_all_vectors st = (Ok (DebugError msg), st)
  end.
Proof.
  unfold clear_index. run.
  destruct (delete_all_vectors (pinecone st)) as [msg|idx]; [reflexivity|].
  split; [reflexivity|].
  intros w question key. rewrite ask_question_run. reflexivity.
Qed.

(** ** [startup_event] *)

Lemma load_api_keys_cons_parsed k d rest st r :
  parsed_record d = Some r ->
  load_api_keys ((k, d) :: rest) st
  = load_api_keys rest (set_api_keys (insert k r) st).
Proof.
  unfold parsed_record. intros Hr. cbn [load_api_keys]. unfold fromisoformat. run.
  destruct (s_last_reset d) as [reset|]; [|discriminate].
  destruct (s_expires_at d) as [expires|]; [|discriminate].
  injection Hr as <-. reflexivity.
Qed.

Lemma load_api_keys_cons_unparsed k d rest st :
  parsed_record d = None ->
  exists msg, load_api_keys ((k, d) :: rest) st = (Raise (Error msg), st).
Proof.
  unfold parsed_record. intros Hr. cbn [load_api_keys]. unfold fromisoformat. run.
  destruct (s_last_reset d) as [reset|]; [|eexists; reflexivity].
  destruct (s_expires_at d) as [expires|]; [discriminate | eexists; reflexivity].
Qed.

(** Loading a stream in which every document parses. *)
Lemma load_api_keys_all (stream : list (string * StoreDoc)) st :
  (forall k d, (k, d) ∈ stream -> is_Some (parsed_record d)) ->
  NoDup (stream.*1) ->
  exists st',
    load_api_keys stream st = (Ok tt, st')
    /\ db st' = db st /\ CURRENT_NAMESPACE st' = CURRENT_NAMESPACE st
    /\ pinecone st' = pinecone st /\ calls st' = calls st
    /\ (forall k d, (k, d) ∈ stream -> api_keys st' !! k = parsed_record d)
    /\ (forall k, k ∉ stream.*1 -> api_keys st' !! k = api_keys st !! k).
Proof.
  revert st. induction stream as [|[k0 d0] rest IH]; intros st Hparsed Hnodup.
  - exists st. repeat split; try reflexivity. intros k d H. inversion H.
  - destruct (Hparsed k0 d0 (list_elem_of_here _ _)) as [r0 Hr0].
    rewrite (load_api_keys_cons_parsed k0 d0 rest st r0 Hr0).
    rewrite fmap_cons in Hnodup. apply NoDup_cons in Hnodup as [Hfresh Hnodup].
    destruct (IH (set_api_keys (insert k0 r0) st)
                (fun k d H => Hparsed k d (list_elem_of_further _ _ _ H)) Hnodup)
      as (st' & Hrun & Hdb & Hns & Hidx & Hcalls & Hin & Hout).
    exists st'. split; [exact Hrun|].
    do 4 (split; [assumption|]). split.
    + intros k d H. apply elem_of_cons in H as [[= -> ->]|Hrest]; [|apply Hin; exact Hrest].
      rewrite (Hout k0 Hfresh). cbn [api_keys set_api_keys].
      rewrite lookup_insert_eq. symmetry. exact Hr0.
    + intros k Hk. rewrite fmap_cons in Hk. apply not_elem_of_cons in Hk as [Hne Hk].
      rewrite (Hout k Hk). cbn [api_keys set_api_keys].
      apply lookup_insert_ne. intros <-. apply Hne. reflexivity.
Qed.

(** Loading stops at the first document that does not parse. *)
Lemma load_api_keys_stops good k d rest st :
  (forall k' d', (k', d') ∈ good -> is_Some (parsed_record d')) ->
  parsed_record d = None ->
  exists msg,
    load_api_keys (good ++ (k, d) :: rest)%list st
    = (Raise (Error msg), snd (load_api_keys good st)).
Proof.
  revert st. induction good as [|[k0 d0] good IH]; intros st Hparsed Hbad.
  - cbn [app]. destruct (load_api_keys_cons_unparsed k d rest st Hbad) as [msg ->].
    exists msg. reflexivity.
  - destruct (Hparsed k0 d0 (list_elem_of_here _ _)) as [r0 Hr0].
    cbn [app]. rewrite !(load_api_keys_cons_parsed k0 d0 _ st r0 Hr0).
    apply IH; [|exact Hbad]. intros k' d' H. apply (Hparsed k' d').
    apply list_elem_of_further. exact H.
Qed.

Lemma load_api_keys_frame (stream : list (string * StoreDoc)) st :
  let st' := snd (load_api_keys stream st) in
  db st' = db st /\ CURRENT_NAMESPACE st' = CURRENT_NAMESPACE st
  /\ pinecone st' = pinecone st /\ calls st' = calls st.
Proof.
  revert st. induction stream as [|[k d] rest IH]; intros st; cbv zeta.
  - repeat split.
  - destruct (parsed_record d) as [r|] eqn:Hr.
    + rewrite (load_api_keys_cons_parsed k d rest st r Hr).
      exact (IH (set_api_keys (insert k r) st)).
    + destruct (load_api_keys_cons_unparsed k d rest st Hr) as [msg ->].
      repeat split.
Qed.

Lemma startup_event_run w stream st :
  startup_event w None stream st
  = (Ok tt, match store_get_fault w with
            | Some _ => st
            | None => snd (load_api_keys stream st)
            end).
Proof.
  unfold startup_event. run. destruct (store_get_fault w); [reflexivity|].
  destruct (load_api_keys stream st) as [[[]|e] st']; reflexivity.
Qed.

(** X20: the bulk load at start-up.  With the store readable and every
    streamed document carrying both timestamps, each key of the stream is
    cached with the owner, usage, reset time and expiry of its document,
    entries of other keys are kept, and nothing but the cache changes.
    From then on such a key is validated from the cache alone: the outcome
    is decided by its expiry, whatever the store holds or answers. *)
Theorem startup_loads_store w (stream : list (string * StoreDoc)) st :
  store_get_fault w = None ->
  NoDup (stream.*1) ->
  (forall k d, (k, d) ∈ stream -> is_Some (parsed_record d)) ->
  let st' := snd (startup_event w None stream st) in
  fst (startup_event w None stream st) = Ok tt
  /\ db st' = db st /\ CURRENT_NAMESPACE st' = CURRENT_NAMESPACE st
  /\ pinecone st' = pinecone st /\ calls st' = calls st
  /\ (forall k d, (k, d) ∈ stream -> api_keys st' !! k = parsed_record d)
  /\ (forall k, k ∉ stream.*1 -> api_keys st' !! k = api_keys st !! k)
  /\ (forall k d expires w' store',
        (k, d) ∈ stream -> s_expires_at d = Some expires ->
        validate_api_key w' k (set_db (fun _ => store') st')
        = (if now w' >? expires
           then Raise (HTTPException 401 expired_detail)
           else Ok k, set_db (fun _ => store') st')).
Proof.
  intros Hget Hnodup Hparsed. cbv zeta. rewrite startup_event_run, Hget. cbn [fst snd].
  destruct (load_api_keys_all stream st Hparsed Hnodup)
    as (st' & -> & Hdb & Hns & Hidx & Hcalls & Hin & Hout).
  cbn [snd]. split; [reflexivity|]. do 4 (split; [assumption|]).
  split; [exact Hin|]. split; [exact Hout|].
  intros k d expires w' store' Hk He.
  destruct (Hparsed k d Hk) as [r Hr].
  rewrite (validate_api_key_cached w' k _ r)
    by (cbn [api_keys set_db]; rewrite (Hin k d Hk); exact Hr).
  unfold parsed_record in Hr. rewrite He in Hr.
  destruct (s_last_reset d); [|discriminate]. injection Hr as <-.
  reflexivity.
Qed.

Lemma startup_loads_store_witness :
  let expires := sample_t0 + timedelta_days 30 in
  let stream := [("k1", sample_doc 40); ("k2", mkStoreDoc None None (Some 5) (Some expires))] in
  let st' := snd (startup_event (sample_world sample_t0) None stream
                    (mkState ∅ ∅ None ∅ [])) in
  api_keys st' !! "k2" = Some (mkKeyRecord (Some None) 0 5 (Some expires))
  /\ validate_api_key (sample_world_store_down expires) "k1" (set_db (fun _ => ∅) st')
     = (Ok "k1", set_db (fun _ => ∅) st').
Proof.
  intros expires stream st'.
  destruct (startup_loads_store (sample_world sample_t0) stream (mkState ∅ ∅ None ∅ []))
    as (_ & _ & _ & _ & _ & Hin & _ & Hvalid).
  - reflexivity.
  - change (NoDup ["k1"; "k2"]). apply NoDup_cons. split; [|apply NoDup_singleton].
    apply not_elem_of_cons. split; [discriminate | apply not_elem_of_nil].
  - intros k d H. apply elem_of_cons in H as [Heq|H];
      [injection Heq as -> ->; vm_compute; eauto|].
    apply elem_of_cons in H as [Heq|H];
      [injection Heq as -> ->; vm_compute; eauto|]. inversion H.
  - unfold st'. split.
    + rewrite (Hin "k2" (mkStoreDoc None None (Some 5) (Some expires))); [reflexivity|].
      unfold stream. set_solver.
    + rewrite (Hvalid "k1" (sample_doc 40) expires (sample_world_store_down expires) ∅);
        [|unfold stream; set_solver | reflexivity].
      cbn [now sample_world_store_down].
      destruct (Z.gtb_spec expires expires); [lia | reflexivity].
Defined.

(** X21: start-up survives the store.  A failure to create the index is
    the only thing that stops it.  Otherwise it returns normally whatever
    the store does, and changes nothing but the cache: with the store
    unreadable the cache is left as it was, and a document without a
    readable reset time or expiry ends the load silently, the keys
    streamed before it being cached and the keys from it on not being
    loaded. *)
Theorem startup_event_tolerant w fault (stream : list (string * StoreDoc)) st :
  let st' := snd (startup_event w fault stream st) in
  (forall msg, fault = Some msg ->
     startup_event w fault stream st = (Raise (Error msg), st))
  /\ (fault = None ->
      fst (startup_event w fault stream st) = Ok tt
      /\ db st' = db st /\ CURRENT_NAMESPACE st' = CURRENT_NAMESPACE st
      /\ pinecone st' = pinecone st /\ calls st' = calls st
      /\ (store_get_fault w <> None -> st' = st)
      /\ (forall good k d rest,
            store_get_fault w = None ->
            stream = (good ++ (k, d) :: rest)%list ->
            (forall k' d', (k', d') ∈ good -> is_Some (parsed_record d')) ->
            parsed_record d = None ->
            st' = snd (startup_event w None good st))).
Proof.
  cbv zeta. split.
  - intros msg ->. reflexivity.
  - intros ->. rewrite startup_event_run. cbn [fst snd].
    split; [reflexivity|].
    destruct (store_get_fault w) as [msg|] eqn:Hget.
    + repeat split; try reflexivity. intros good k d rest Hnone. discriminate.
    + destruct (load_api_keys_frame stream st) as (Hdb & Hns & Hidx & Hcalls).
      do 4 (split; [assumption|]). split; [intros H; contradiction|].
      intros good k d rest _ -> Hgood Hbad.
      destruct (load_api_keys_stops good k d rest st Hgood Hbad) as [msg ->].
      rewrite startup_event_run, Hget. reflexivity.
Qed.

Lemma startup_event_tolerant_witness :
  let broken := mkStoreDoc (Some "u3") (Some 1) None (Some sample_t0) in
  let stream := [("k1", sample_doc 40); ("k3", broken); ("k4", sample_doc 7)] in
  let st' := snd (startup_event (sample_world sample_t0) None stream
                    (mkState ∅ ∅ None ∅ [])) in
  fst (startup_event (sample_world sample_t0) None stream (mkState ∅ ∅ None ∅ [])) = Ok tt
  /\ usage_of "k1" st' = Some 40
  /\ api_keys st' !! "k4" = None.
Proof.
  intros broken stream st'.
  destruct (startup_event_tolerant (sample_world sample_t0) None stream
              (mkState ∅ ∅ None ∅ [])) as [_ Hok].
  destruct (Hok eq_refl) as (Hfst & _ & _ & _ & _ & _ & Hpartial).
  split; [exact Hfst|].
  assert (Hst : st' = snd (startup_event (sample_world sample_t0) None
                             [("k1", sample_doc 40)] (mkState ∅ ∅ None ∅ []))).
  { apply (Hpartial [("k1", sample_doc 40)] "k3" broken [("k4", sample_doc 7)]);
      try reflexivity.
    intros k' d' H. apply list_elem_of_singleton in H. injection H as -> ->.
    vm_compute. eauto. }
  rewrite Hst. split; vm_compute; reflexivity.
Defined.

(** ** [create_api_key] *)

Ltac runI :=
  cbv beta iota delta [bindI retI raiseI getI modifyI try_exceptI].

(** [create_api_key] on a bearer header, case by case. *)
Lemma create_api_key_run w verify uuid users_fault keys_fault header st :
  String.prefix "Bearer " header = true ->
  create_api_key w verify uuid users_fault keys_fault (Some header) st
  = match verify (bearer_token header) with
    | inl msg =>
        (Raise (HTTPException 401 ("Invalid authentication token: "
                  +:+ exc_str (HTTPException 401 ("Invalid token: " +:+ msg)))), st)
    | inr data =>
        match store_get_fault w with
        | Some msg =>
            (Raise (HTTPException 401 ("Invalid authentication token: " +:+ msg)), st)
        | None =>
            match users_fault with
            | Some msg =>
                (Raise (HTTPException 401 ("Invalid authentication token: " +:+ msg)), st)
            | None =>
                let st1 :=
                  set_users (match users st !! uid data with
                             | None => insert (uid data) (new_user_doc w data)
                             | Some _ => alter (touch_login w) (uid data)
                             end) st in
                match keys_fault with
                | Some msg =>
                    (Raise (HTTPException 401
                              ("Invalid authentication token: " +:+ msg)), st1)
                | None =>
                    let expires := now w + timedelta_days 30 in
                    (Ok (mkKeyResponse uuid expires),
                     on_keys (set_api_keys (insert uuid
                                (mkKeyRecord (Some (Some (uid data))) 0 (now w) (Some expires))))
                       (on_keys (set_db (insert uuid
                                   (mkStoreDoc (Some (uid data)) (Some 0) (Some (now w))
                                      (Some expires)))) st1))
                end
            end
        end
    end.
Proof.
  intros Hprefix. unfold create_api_key. rewrite Hprefix. cbn [negb].
  unfold verify_firebase_token, users_get, users_write, keys_set. runI.
  destruct (verify (bearer_token header)) as [msg|data]; [reflexivity|].
  destruct (store_get_fault w); [reflexivity|].
  destruct (users st !! uid data); destruct users_fault; try reflexivity;
    destruct keys_fault; reflexivity.
Qed.

(** X22: no bearer header, no issuance.  A request without an
    [Authorization] header, or with one that does not start with
    ["Bearer "], is refused with status 401 before the token verifier or
    the store is touched: nothing changes, whatever the collaborators
    would have answered. *)
Theorem issue_requires_bearer w verify uuid users_fault keys_fault header st :
  match header with
  | None => True
  | Some h => String.prefix "Bearer " h = false
  end ->
  create_api_key w verify uuid users_fault keys_fault header st
  = (Raise (HTTPException 401 AUTH_REQUIRED_DETAIL), st).
Proof.
  intros H. unfold create_api_key. destruct header as [h|]; [|reflexivity].
  rewrite H. reflexivity.
Qed.

Lemma issue_requires_bearer_witness :
  let st := mkIssueState (sample_state 0) ∅ in
  create_api_key (sample_world sample_t0) sample_verifier "new-key" None None
    (Some "Basic good") st
  = (Raise (HTTPException 401 "Authentication required"), st)
  /\ create_api_key (sample_world sample_t0) sample_verifier "new-key" None None None st
     = (Raise (HTTPException 401 "Authentication required"), st).
Proof.
  intros st. split.
  - apply (issue_requires_bearer (sample_world sample_t0) sample_verifier "new-key"
             None None (Some "Basic good") st). reflexivity.
  - apply (issue_requires_bearer (sample_world sample_t0) sample_verifier "new-key"
             None None None st). exact I.
Defined.

(** X23: a failed issuance is a 401 and leaves no key behind.  Whatever
    goes wrong (header, token verification, store read or write), the
    error has status 401, never 500, and the key cache, the key store, the
    pointer and the index are exactly as before; only the login may
    already have been recorded in [users]. *)
Theorem issue_failure_leaves_no_key w verify uuid users_fault keys_fault header st e :
  fst (create_api_key w verify uuid users_fault keys_fault header st) = Raise e ->
  (exists detail, e = HTTPException 401 detail)
  /\ key_state (snd (create_api_key w verify uuid users_fault keys_fault header st))
     = key_state st.
Proof.
  destruct header as [h|].
  2: { cbn [fst snd create_api_key raiseI]. intros [= <-]. eauto. }
  destruct (String.prefix "Bearer " h) eqn:Hprefix.
  2: { unfold create_api_key. rewrite Hprefix.
       cbn [negb fst snd raiseI]. intros [= <-]. eauto. }
  rewrite (create_api_key_run w verify uuid users_fault keys_fault h st Hprefix).
  destruct (verify (bearer_token h)) as [msg|data]; [cbn [fst snd]; intros [= <-]; eauto|].
  destruct (store_get_fault w); [cbn [fst snd]; intros [= <-]; eauto|].
  destruct users_fault; [cbn [fst snd]; intros [= <-]; eauto|].
  cbv zeta. destruct keys_fault; cbn [fst snd]; [intros [= <-]; eauto | discriminate].
Qed.

Lemma issue_failure_leaves_no_key_witness :
  let st := mkIssueState (sample_state 0) ∅ in
  (exists detail,
     HTTPException 401 "Invalid authentication token: key store down"
     = HTTPException 401 detail)
  /\ key_state (snd (create_api_key (sample_world sample_t0) sample_verifier "new-key"
                       None (Some "key store down") (Some "Bearer good") st))
     = sample_state 0.
Proof.
  intros st.
  apply (issue_failure_leaves_no_key (sample_world sample_t0) sample_verifier "new-key"
           None (Some "key store down") (Some "Bearer good") st).
  vm_compute. reflexivity.
Defined.





(** ** Every cached record has an expiry *)

Lemma cache_has_expiry_insert key r st :
  is_Some (expires_at r) ->
  cache_has_expiry st -> cache_has_expiry (set_api_keys (insert key r) st).
Proof.
  intros Hr Hst k r0. cbn [api_keys set_api_keys]. rewrite lookup_insert.
  destruct (decide (key = k)); [intros [= <-]; exact Hr | apply Hst].
Qed.

Lemma cache_has_expiry_ext st1 st2 :
  api_keys st1 = api_keys st2 -> cache_has_expiry st2 -> cache_has_expiry st1.
Proof. unfold cache_has_expiry. intros ->. auto. Qed.

Lemma validate_api_key_keeps_expiry w key st :
  cache_has_expiry st -> cache_has_expiry (snd (validate_api_key w key st)).
Proof.
  intros Hst. destruct (api_keys st !! key) as [r|] eqn:Hr.
  - rewrite (validate_api_key_cached w key st r Hr). exact Hst.
  - rewrite (validate_api_key_uncached w key st Hr).
    destruct (store_get_fault w); [exact Hst|].
    destruct (db st !! key) as [d|]; [|exact Hst].
    destruct (s_expires_at d) as [e|]; [|exact Hst].
    destruct (now w >? e); [exact Hst|].
    destruct (s_last_reset d); [|exact Hst].
    cbn [snd]. apply cache_has_expiry_insert; [cbn; eauto | exact Hst].
Qed.

Lemma upload_pdf_keeps_expiry w filename content key st :
  cache_has_expiry st -> cache_has_expiry (snd (upload_pdf w filename content key st)).
Proof.
  intros Hst.
  destruct (upload_pdf_cases w filename content key st)
    as [(detail & ->)|(r & Hpayload & Hr & Hquota)]; [exact Hst|].
  destruct (upload_pdf_admitted_state w filename content key st r Hpayload Hr Hquota)
    as (Hkeys & _).
  apply (cache_has_expiry_ext _
           (set_api_keys (insert key (add_usage (Z.of_nat (String.length content))
                                        (reset_if_new_day w r))) st)).
  - rewrite Hkeys, metered_api_keys. reflexivity.
  - apply cache_has_expiry_insert; [|exact Hst].
    cbn [add_usage expires_at]. rewrite reset_if_new_day_expires_at. exact (Hst key r Hr).
Qed.

Lemma ask_question_api_keys w question key st :
  api_keys (snd (ask_question w question key st)) = api_keys st.
Proof.
  rewrite ask_question_run.
  destruct (CURRENT_NAMESPACE st) as [ns|]; [|reflexivity].
  destruct (String.eqb ns EmptyString); [reflexivity|]. cbv zeta.
  destruct (similarity_search w (default [] (pinecone st !! ns)) question)
    as [msg|[|doc rest]]; try reflexivity.
  destruct (llm_invoke w _); reflexivity.
Qed.

Lemma load_api_keys_keeps_expiry (stream : list (string * StoreDoc)) st :
  cache_has_expiry st -> cache_has_expiry (snd (load_api_keys stream st)).
Proof.
  revert st. induction stream as [|[k d] rest IH]; intros st Hst; [exact Hst|].
  destruct (parsed_record d) as [r|] eqn:Hr.
  - rewrite (load_api_keys_cons_parsed k d rest st r Hr). apply IH.
    apply cache_has_expiry_insert; [|exact Hst].
    unfold parsed_record in Hr.
    destruct (s_last_reset d); [|discriminate].
    destruct (s_expires_at d); [|discriminate].
    injection Hr as <-. cbn. eauto.
  - destruct (load_api_keys_cons_unparsed k d rest st Hr) as [msg ->]. exact Hst.
Qed.

(** X26: no key without expiry arises through the endpoints.  If every
    cached record has an expiry, this still holds after key validation,
    after an upload request, after a question, after the start-up load and
    after a key issuance, whatever their outcome: the record without
    expiry that [update_usage_metrics] creates for an unknown key is out
    of reach, since an upload meters a key only after [check_quota] has
    found it in the cache. *)
Theorem cache_has_expiry_preserved w st :
  cache_has_expiry st ->
  (forall key, cache_has_expiry (snd (validate_api_key w key st)))
  /\ (forall filename content key,
        cache_has_expiry (snd (upload_request w filename content key st)))
  /\ (forall question key, cache_has_expiry (snd (ask_request w question key st)))
  /\ (forall fault stream, cache_has_expiry (snd (startup_event w fault stream st)))
  /\ (forall verify uuid users_fault keys_fault header us,
        cache_has_expiry
          (key_state (snd (create_api_key w verify uuid users_fault keys_fault header
                             (mkIssueState st us))))).
Proof.
  intros Hst. split; [|split; [|split; [|split]]].
  - intros key. apply validate_api_key_keeps_expiry. exact Hst.
  - intros filename content key. unfold upload_request, bind.
    pose proof (validate_api_key_keeps_expiry w key st Hst) as Hvalid.
    destruct (validate_api_key w key st) as [[k|e] st1]; cbn [snd] in Hvalid |- *;
      [apply upload_pdf_keeps_expiry; exact Hvalid | exact Hvalid].
  - intros question key. unfold ask_request, bind.
    pose proof (validate_api_key_keeps_expiry w key st Hst) as Hvalid.
    destruct (validate_api_key w key st) as [[k|e] st1]; cbn [snd] in Hvalid |- *;
      [|exact Hvalid].
    apply (cache_has_expiry_ext _ st1); [apply ask_question_api_keys | exact Hvalid].
  - intros [msg|] stream; [exact Hst|].
    rewrite startup_event_run. cbn [snd].
    destruct (store_get_fault w); [exact Hst|].
    apply load_api_keys_keeps_expiry. exact Hst.
  - intros verify uuid users_fault keys_fault [h|] us; [|exact Hst].
    destruct (String.prefix "Bearer " h) eqn:Hprefix.
    2: { unfold create_api_key. rewrite Hprefix. exact Hst. }
    rewrite (create_api_key_run w verify uuid users_fault keys_fault h _ Hprefix).
    destruct (verify (bearer_token h)) as [msg|data]; [exact Hst|].
    destruct (store_get_fault w); [exact Hst|].
    destruct users_fault; [exact Hst|]. cbv zeta.
    destruct keys_fault; [exact Hst|].
    cbn [snd key_state on_keys set_users].
    apply cache_has_expiry_insert; [cbn; eauto|].
    apply (cache_has_expiry_ext _ st); [reflexivity | exact Hst].
Qed.

Lemma cache_has_expiry_preserved_witness :
  cache_has_expiry
    (snd (upload_request (sample_world sample_t0) "b.pdf" sample_pdf "k1" (sample_state 0))).
Proof.
  apply (cache_has_expiry_preserved (sample_world sample_t0) (sample_state 0)).
  intros k r. unfold sample_state. cbn [api_keys].
  intros H. apply lookup_singleton_Some in H as [_ <-]. cbn. eauto.
Defined.

(** X27: the first upload with a key the process has not seen.  For a key
    absent from the cache whose store document is readable and not
    expired, the request validates, caches the record and meters the
    upload on top of the usage the store held (from 0 when the stored
    window is over): the counter does not restart at 0 with the
    process. *)
Theorem upload_request_cold_key w filename content key st d reset expires :
  api_keys st !! key = None ->
  store_get_fault w = None ->
  db st !! key = Some d ->
  s_last_reset d = Some reset ->
  s_expires_at d = Some expires ->
  now w <= expires ->
  payload_ok w content = true ->
  default 0 (s_daily_usage d) <= DAILY_QUOTA ->
  let st' := snd (upload_request w filename content key st) in
  usage_of key st'
  = Some ((if now w - reset >? timedelta_days 1 then 0 else default 0 (s_daily_usage d))
          + Z.of_nat (String.length content))
  /\ (store_update_ok w = true ->
      s_daily_usage <$> db st' !! key = Some (usage_of key st')).
Proof.
  intros Hr Hget Hd Hreset He Hnow Hpayload Hquota st'. subst st'.
  unfold upload_request, bind.
  rewrite (validate_api_key_uncached w key st Hr), Hget, Hd, He, Hreset.
  destruct (Z.gtb_spec (now w) expires); [lia|].
  set (r := mkKeyRecord (Some (s_user_id d)) (default 0 (s_daily_usage d)) reset (Some expires)).
  set (st1 := set_api_keys (insert key r) st).
  assert (Hr1 : api_keys st1 !! key = Some r)
    by (unfold st1; cbn [api_keys set_api_keys]; apply lookup_insert_eq).
  destruct (upload_pdf_admitted_state w filename content key st1 r Hpayload Hr1 Hquota)
    as (Hkeys & Hdb & _).
  unfold usage_of. rewrite Hkeys, Hdb, metered_lookup.
  cbn [fmap option_fmap option_map add_usage daily_usage].
  split.
  - unfold reset_if_new_day. cbn [last_reset r].
    destruct (now w - reset >? timedelta_days 1); reflexivity.
  - intros Hok. unfold metered. rewrite Hok. cbn [db set_db set_api_keys st1].
    rewrite lookup_alter_eq, Hd. reflexivity.
Qed.

Lemma upload_request_cold_key_witness :
  let st := set_api_keys (fun _ => ∅) (sample_state_stored 100) in
  usage_of "k1"
    (snd (upload_request (sample_world (sample_t0 + 5)) "b.pdf" sample_pdf "k1" st))
  = Some 115.
Proof.
  intros st.
  destruct (upload_request_cold_key (sample_world (sample_t0 + 5)) "b.pdf" sample_pdf "k1" st
              (sample_doc 100) sample_t0 (sample_t0 + timedelta_days 30)
              eq_refl eq_refl eq_refl eq_refl eq_refl
              ltac:(vm_compute; discriminate) eq_refl ltac:(vm_compute; discriminate))
    as [Husage _].
  etransitivity; [exact Husage | vm_compute; reflexivity].
Defined.

Lemma validate_api_key_outcomes_witness :
  snd (validate_api_key (sample_world_store_down sample_t0) "unknown" (sample_state 0))
  = sample_state 0.
Proof.
  pose proof (validate_api_key_outcomes (sample_world_store_down sample_t0) "unknown"
                (sample_state 0)) as H.
  destruct (validate_api_key (sample_world_store_down sample_t0) "unknown" (sample_state 0))
    as [[k|e] st'] eqn:E.
  - vm_compute in E. discriminate.
  - exact (proj1 H).
Defined.

Lemma update_usage_metrics_frame_witness :
  let st := set_api_keys (fun _ => ∅) (sample_state_stored 100) in
  snd (update_usage_metrics (sample_world_store_down sample_t0) "k1" 20 st) = st
  /\ api_keys (snd (update_usage_metrics (sample_world sample_t0) "k1" 20 (sample_state 3)))
       !! "k2"
     = None.
Proof.
  intros st.
  destruct (update_usage_metrics_frame (sample_world_store_down sample_t0) "k1" 20 st)
    as (_ & _ & _ & _ & Hraise).
  destruct (update_usage_metrics_frame (sample_world sample_t0) "k1" 20 (sample_state 3))
    as (_ & _ & _ & Hother & _).
  split.
  - apply (Hraise (Error "store unavailable")). reflexivity.
  - destruct (Hother "k2") as [Hkeys _]; [discriminate|].
    rewrite Hkeys. reflexivity.
Defined.
